(** * Currency Recognition API: the dual-provider analysis orchestrator

    A shallow embedding of [backend/server.py]: the two provider adapters
    ([analyze_with_openai], [analyze_with_gemini]), the result combiner
    ([combine_ai_results]), the request handler [analyze_currency] and the
    single-record read [get_analysis], with the properties the
    specification states about them. *)

From Stdlib Require Import ZArith Strings.Byte Floats.SpecFloat.
From stdpp Require Import gmap strings list fin_maps pretty sorting.

Local Open Scope Z_scope.
Local Set Warnings "-register-all".

(** ** Python values

    The values [json.loads] can produce, which is all the handler ever puts
    in a provider result.  A [str] is the Rocq string of its UTF-8 bytes;
    an [int] is unbounded; a [float] is its IEEE 754 datum; a [dict] built
    from JSON has string keys. *)

Inductive pyval : Type :=
| PyNone
| PyBool (b : bool)
| PyInt (z : Z)
| PyFloat (f : spec_float)
| PyStr (s : string)
| PyList (l : list pyval)
| PyDict (d : gmap string pyval).

(** [type(v).__name__], as it appears in the interpreter's error messages. *)
Definition type_name (v : pyval) : string :=
  match v with
  | PyNone => "NoneType"
  | PyBool _ => "bool"
  | PyInt _ => "int"
  | PyFloat _ => "float"
  | PyStr _ => "str"
  | PyList _ => "list"
  | PyDict _ => "dict"
  end.

(** [bool(v)]: the truth value the [if] statement tests. *)
Definition truthy (v : pyval) : bool :=
  match v with
  | PyNone => false
  | PyBool b => b
  | PyInt z => negb (z =? 0)
  | PyFloat (S754_zero _) => false
  | PyFloat _ => true
  | PyStr s => negb (String.length s =? 0)%nat
  | PyList l => negb (length l =? 0)%nat
  | PyDict d => negb (size d =? 0)%nat
  end.

(** ** Exceptions

    The [Exception] subclasses that can reach a handler of this module.
    [LibraryError] stands for whatever an external library (the provider
    SDK, the database driver, the password context, the JWT library)
    raises, identified by its [str()]. *)

Inductive exn : Type :=
| HTTPException (status_code : Z) (detail : string)
| AttributeError (msg : string)
| TypeError (msg : string)
| OverflowError (msg : string)
| LibraryError (msg : string).

Inductive res (A : Type) : Type :=
| Ret (a : A)
| Raise (e : exn).
Arguments Ret {A} a.
Arguments Raise {A} e.

(** [o.get(key, default)]: only a [dict] has the method. *)
Definition py_get (o : pyval) (key : string) (dflt : pyval) : res pyval :=
  match o with
  | PyDict d => Ret (default dflt (d !! key))
  | _ => Raise (AttributeError
                  ("'" +:+ type_name o +:+ "' object has no attribute 'get'"))
  end.

(** Whether a byte continues a UTF-8 sequence, [10xxxxxx]. *)
Definition utf8_continuation (c : Ascii.ascii) : bool :=
  match c with
  | Ascii.Ascii _ _ _ _ _ _ b6 b7 => b7 && negb b6
  end.

(** The number of code points of a [str]: the bytes of its UTF-8 form that
    start a sequence. *)
Fixpoint str_len (s : string) : nat :=
  match s with
  | EmptyString => 0%nat
  | String c s' =>
      if utf8_continuation c then str_len s' else S (str_len s')
  end.

(** [len(v)]: defined on the sized types only. *)
Definition py_len (v : pyval) : res nat :=
  match v with
  | PyStr s => Ret (str_len s)
  | PyList l => Ret (length l)
  | PyDict d => Ret (size d)
  | _ => Raise (TypeError
                  ("object of type '" +:+ type_name v +:+ "' has no len()"))
  end.

(** Sequencing of computations that may raise. *)
#[export] Instance res_ret : MRet res := λ A a, Ret a.
#[export] Instance res_bind : MBind res :=
  λ A B f m, match m with Ret a => f a | Raise e => Raise e end.

(** ** The result combiner *)

(** The [combined] dict literal of [combine_ai_results]: five fixed keys. *)
Record CombinedAnalysis : Type := mkCombined {
  comparison : string;
  openai_summary : pyval;
  gemini_summary : pyval;
  consensus : gmap string pyval;
  discrepancies : list string
}.

(** [combined["consensus"][key] = v] *)
Definition consensus_setitem (key : string) (v : pyval)
    (c : CombinedAnalysis) : CombinedAnalysis :=
  mkCombined (comparison c) (openai_summary c) (gemini_summary c)
             (<[key := v]> (consensus c)) (discrepancies c).

(** [combined["discrepancies"].append(note)] *)
Definition discrepancies_append (note : string)
    (c : CombinedAnalysis) : CombinedAnalysis :=
  mkCombined (comparison c) (openai_summary c) (gemini_summary c)
             (consensus c) (discrepancies c ++ [note]).

Definition combine_ai_results (openai_result gemini_result : pyval)
    : res CombinedAnalysis :=
  let combined :=
    {| comparison := "dual_ai_analysis";
       openai_summary := openai_result;
       gemini_summary := gemini_result;
       consensus := ∅;
       discrepancies := [] |} in
  openai_currencies ← py_get openai_result "currencies_detected" (PyList []);
  gemini_currencies ← py_get gemini_result "currencies_detected" (PyList []);
  if truthy openai_currencies && truthy gemini_currencies then
    n_openai ← py_len openai_currencies;
    n_gemini ← py_len gemini_currencies;
    if (n_openai =? n_gemini)%nat then
      mret (consensus_setitem "currency_count_match" (PyBool true) combined)
    else
      mret (discrepancies_append "Different number of currencies detected"
                                 combined)
  else
    mret combined.

(** ** Documents, requests and the outside world *)

(** The [analysis_doc] dict literal of [analyze_currency], with the [_id]
    key that the driver's [insert_one] adds to the document it stores.  A
    [datetime] is its number of microseconds since the epoch. *)
Record AnalysisDoc : Type := mkDoc {
  doc__id : option Z;
  doc_id : string;
  doc_user_id : string;
  doc_openai_result : pyval;
  doc_gemini_result : pyval;
  doc_combined_analysis : CombinedAnalysis;
  doc_timestamp : Z;
  doc_filename : option string
}.

(** The dict [analyze_currency] returns on success. *)
Record AnalyzeResponse : Type := mkResponse {
  analysis_id : string;
  openai_result : pyval;
  gemini_result : pyval;
  combined_analysis : CombinedAnalysis;
  timestamp : Z
}.

(** What the handler reads of FastAPI's [UploadFile]. *)
Record UploadFile : Type := mkUpload {
  content_type : option string;
  filename : option string;
  file_bytes : list byte
}.

(** The users document [get_current_user] found by its [username]. *)
Record User : Type := mkUser { username : string }.

(** How [chat.send_message] (with the construction of the chat before it)
    ends: it returns the response text or raises. *)
Inductive call_outcome : Type :=
| Replied (response : string)
| Raised (error : string).

(** Library functions the module calls, and what the outside world decides
    during one request. *)
Record Env : Type := mkEnv {
  (** [json.loads]; [None] when it raises *)
  json_loads : string → option pyval;
  (** [base64.b64encode(b).decode('utf-8')] *)
  b64encode : list byte → string;
  (** [str(e)] of an [HTTPException] with this status code and detail *)
  str_HTTPException : Z → string → string;
  (** the n-th value of [str(uuid.uuid4())] *)
  uuid4_str : nat → string;
  (** [datetime.utcnow()] *)
  utcnow : Z;
  (** the outcome of the call to a provider and model on an encoded image *)
  llm_outcome : string → string → string → call_outcome;
  (** [Some msg] when the driver's [insert_one] raises on this document *)
  insert_error : AnalysisDoc → option string;
  (** the [_id] given to the n-th document of the collection *)
  object_id : nat → Z
}.

(** A [datetime] as the database keeps it: BSON dates count milliseconds,
    so the driver drops what is below a millisecond. *)
Definition bson_datetime (t : Z) : Z := t / 1000 * 1000.

(** What a run leaves behind, in order. *)
Inductive event : Type :=
| EvEncode (image_bytes : list byte)
| EvSendMessage (provider model session_id image_base64 : string)
| EvInsertOne (doc : AnalysisDoc).

Record State : Type := mkState {
  analysis_collection : list AnalysisDoc;
  uuid_count : nat;
  trace : list event
}.

(** ** Stateful computations that may raise *)

Definition M (A : Type) : Type := State → res A * State.

#[export] Instance M_ret : MRet M := λ A a st, (Ret a, st).
#[export] Instance M_bind : MBind M :=
  λ A B f m st,
    match m st with
    | (Ret a, st') => f a st'
    | (Raise e, st') => (Raise e, st')
    end.

Definition raise {A : Type} (e : exn) : M A := λ st, (Raise e, st).

Definition lift {A : Type} (r : res A) : M A := λ st, (r, st).

Definition log (ev : event) : M unit :=
  λ st, (Ret tt, mkState (analysis_collection st) (uuid_count st)
                         (trace st ++ [ev])).

(** [try: body / except Exception as e: handler e]: every [exn] is an
    [Exception]. *)
Definition try_except {A : Type} (body : M A) (handler : exn → M A) : M A :=
  λ st,
    match body st with
    | (Ret a, st') => (Ret a, st')
    | (Raise e, st') => handler e st'
    end.

(** [await asyncio.gather(t1, t2)]: both coroutines run to their end, the
    results are paired by position, and the first exception, if any, is
    raised in the caller.  The two adapter coroutines share nothing but the
    uuid source and the log, so they are run in argument order. *)
Definition gather {A B : Type} (t1 : M A) (t2 : M B) : M (A * B) :=
  λ st,
    let '(r1, st1) := t1 st in
    let '(r2, st2) := t2 st1 in
    match r1, r2 with
    | Ret a, Ret b => (Ret (a, b), st2)
    | Raise e, _ => (Raise e, st2)
    | _, Raise e => (Raise e, st2)
    end.

(** ** The module's functions, relative to an environment *)

Section Server.
Context (env : Env).

(** [str(e)] *)
Definition exn_str (e : exn) : string :=
  match e with
  | HTTPException status_code detail =>
      str_HTTPException env status_code detail
  | AttributeError msg => msg
  | TypeError msg => msg
  | OverflowError msg => msg
  | LibraryError msg => msg
  end.

(** [str(uuid.uuid4())] *)
Definition uuid4 : M string :=
  λ st, (Ret (uuid4_str env (uuid_count st)),
         mkState (analysis_collection st) (S (uuid_count st)) (trace st)).

(** The chat built by [LlmChat(...).with_model(provider, model)] and the
    awaited [chat.send_message] on the one image. *)
Definition send_message (provider model session_id image_base64 : string)
    : M string :=
  _ ← log (EvSendMessage provider model session_id image_base64);
  match llm_outcome env provider model image_base64 with
  | Replied response => mret response
  | Raised error => raise (LibraryError error)
  end.

Definition convert_image_to_base64 (image_bytes : list byte) : string :=
  b64encode env image_bytes.

(** A call of [convert_image_to_base64], which the trace records. *)
Definition call_convert_image_to_base64 (image_bytes : list byte)
    : M string :=
  _ ← log (EvEncode image_bytes);
  mret (convert_image_to_base64 image_bytes).

Definition analyze_with_openai (image_base64 : string) : M pyval :=
  try_except
    (u ← uuid4;
     response ← send_message "openai" "gpt-4o-mini"
                             ("openai-currency-" +:+ u) image_base64;
     match json_loads env response with
     | Some parsed => mret parsed
     | None =>
         mret (PyDict {[ "raw_response" := PyStr response;
                         "provider" := PyStr "OpenAI GPT-4o-mini" ]})
     end)
    (λ e, mret (PyDict {[ "error" := PyStr (exn_str e);
                          "provider" := PyStr "OpenAI GPT-4o-mini" ]})).

Definition analyze_with_gemini (image_base64 : string) : M pyval :=
  try_except
    (u ← uuid4;
     response ← send_message "gemini" "gemini-2.0-flash"
                             ("gemini-currency-" +:+ u) image_base64;
     match json_loads env response with
     | Some parsed => mret parsed
     | None =>
         mret (PyDict {[ "raw_response" := PyStr response;
                         "provider" := PyStr "Google Gemini 2.0 Flash" ]})
     end)
    (λ e, mret (PyDict {[ "error" := PyStr (exn_str e);
                          "provider" := PyStr "Google Gemini 2.0 Flash" ]})).

(** [file.content_type.startswith(prefix)]; the content type is [None]
    when the upload declares none. *)
Definition content_type_startswith (file : UploadFile) (prefix : string)
    : res bool :=
  match content_type file with
  | Some ct => Ret (String.prefix prefix ct)
  | None => Raise (AttributeError
                     "'NoneType' object has no attribute 'startswith'")
  end.

(** [analysis_collection.insert_one(doc)] *)
Definition insert_one (doc : AnalysisDoc) : M unit :=
  _ ← log (EvInsertOne doc);
  match insert_error env doc with
  | Some msg => raise (LibraryError msg)
  | None =>
      λ st,
        let stored :=
          mkDoc (Some (object_id env (length (analysis_collection st))))
                (doc_id doc) (doc_user_id doc) (doc_openai_result doc)
                (doc_gemini_result doc) (doc_combined_analysis doc)
                (bson_datetime (doc_timestamp doc)) (doc_filename doc) in
        (Ret tt, mkState (analysis_collection st ++ [stored])
                         (uuid_count st) (trace st))
  end.

Definition analyze_currency (file : UploadFile) (current_user : User)
    : M AnalyzeResponse :=
  try_except
    (is_image ← lift (content_type_startswith file "image/");
     if negb is_image then
       raise (HTTPException 400 "File must be an image")
     else
       let image_bytes := file_bytes file in
       image_base64 ← call_convert_image_to_base64 image_bytes;
       let openai_task := analyze_with_openai image_base64 in
       let gemini_task := analyze_with_gemini image_base64 in
       '(openai_result, gemini_result) ← gather openai_task gemini_task;
       combined_analysis ← lift (combine_ai_results openai_result
                                                    gemini_result);
       id ← uuid4;
       let analysis_doc :=
         {| doc__id := None;
            doc_id := id;
            doc_user_id := username current_user;
            doc_openai_result := openai_result;
            doc_gemini_result := gemini_result;
            doc_combined_analysis := combined_analysis;
            doc_timestamp := utcnow env;
            doc_filename := filename file |} in
       _ ← insert_one analysis_doc;
       mret {| analysis_id := doc_id analysis_doc;
               openai_result := openai_result;
               gemini_result := gemini_result;
               combined_analysis := combined_analysis;
               timestamp := doc_timestamp analysis_doc |})
    (λ e, raise (HTTPException 500 (exn_str e))).

(** [analysis_collection.find_one({"id": ..., "user_id": ...})]: the first
    document, in the collection's order, that has both values. *)
Definition find_one (id user_id : string) : M (option AnalysisDoc) :=
  λ st,
    (Ret (List.find (λ doc, bool_decide (doc_id doc = id)
                            && bool_decide (doc_user_id doc = user_id))
                    (analysis_collection st)),
     st).

(** [analysis.pop('_id', None)] *)
Definition pop__id (doc : AnalysisDoc) : AnalysisDoc :=
  mkDoc None (doc_id doc) (doc_user_id doc) (doc_openai_result doc)
        (doc_gemini_result doc) (doc_combined_analysis doc)
        (doc_timestamp doc) (doc_filename doc).

Definition get_analysis (analysis_id : string) (current_user : User)
    : M AnalysisDoc :=
  analysis ← find_one analysis_id (username current_user);
  match analysis with
  | None => raise (HTTPException 404 "Analysis not found")
  | Some doc => mret (pop__id doc)
  end.

End Server.

(** ** The vocabulary of the specification

    The three ProviderResult variants, as the shapes the adapters give
    them. *)

(** A parsed response that is a JSON object listing [detections]. *)
Definition Structured (r : pyval) (detections : list pyval) : Prop :=
  ∃ d : gmap string pyval,
    r = PyDict d ∧ d !! "currencies_detected" = Some (PyList detections).

Definition RawFallback (raw_text provider : string) : pyval :=
  PyDict {[ "raw_response" := PyStr raw_text; "provider" := PyStr provider ]}.

Definition Failed (error_message provider : string) : pyval :=
  PyDict {[ "error" := PyStr error_message; "provider" := PyStr provider ]}.

(** [r.get('provider')], where [r] is a dict *)
Definition provider_field (r : pyval) : option pyval :=
  match r with
  | PyDict d => d !! "provider"
  | _ => None
  end.

(** The output contract of an adapter (specification, section 4.1): what
    the provider tagged [provider] makes of the outcome of its call. *)
Definition adapter_contract (env : Env) (provider : string)
    (outcome : call_outcome) : pyval :=
  match outcome with
  | Replied response =>
      match json_loads env response with
      | Some parsed => parsed
      | None => RawFallback response provider
      end
  | Raised error => Failed error provider
  end.

(** The state one adapter call leaves: one uuid drawn for the session id,
    one message sent. *)
Definition after_call (env : Env) (provider model session_prefix : string)
    (image_base64 : string) (st : State) : State :=
  mkState (analysis_collection st) (S (uuid_count st))
          (trace st ++ [EvSendMessage provider model
                          (session_prefix +:+ uuid4_str env (uuid_count st))
                          image_base64]).

(** The JSON value in the outcome of a call, when there is one. *)
Definition parsed (env : Env) (outcome : call_outcome) : option pyval :=
  match outcome with
  | Replied response => json_loads env response
  | Raised _ => None
  end.

Definition is_image (file : UploadFile) : Prop :=
  ∃ ct, content_type file = Some ct ∧ String.prefix "image/" ct = true.

Definition openai_outcome (env : Env) (file : UploadFile) : call_outcome :=
  llm_outcome env "openai" "gpt-4o-mini"
              (convert_image_to_base64 env (file_bytes file)).

Definition gemini_outcome (env : Env) (file : UploadFile) : call_outcome :=
  llm_outcome env "gemini" "gemini-2.0-flash"
              (convert_image_to_base64 env (file_bytes file)).

(** ** A concrete environment for the examples *)

Module Sample.

(** One detection, as in the specification's scenario. *)
Definition usd20 : pyval :=
  PyDict {[ "currency_type" := PyStr "USD";
            "denomination" := PyStr "20";
            "quantity" := PyInt 1;
            "confidence" := PyStr "high" ]}.

Definition eur5 : pyval :=
  PyDict {[ "currency_type" := PyStr "EUR";
            "denomination" := PyStr "5";
            "quantity" := PyInt 2;
            "confidence" := PyStr "low" ]}.

Definition detected (l : list pyval) : pyval :=
  PyDict {[ "currencies_detected" := PyList l ]}.

(** [json.loads] on the few response texts of the examples; every other
    text is taken as one it rejects. *)
Definition loads (text : string) : option pyval :=
  if String.eqb text "{}" then Some (PyDict ∅)
  else if String.eqb text "[]" then Some (PyList [])
  else if String.eqb text "null" then Some PyNone
  else if String.eqb text "42" then Some (PyInt 42)
  else None.

Definition b64_alphabet : string :=
  "ABCDEFGHIJKLMNOPQRSTUVWXYZabcdefghijklmnopqrstuvwxyz0123456789+/".

Definition b64_char (n : N) : string :=
  match String.get (N.to_nat n) b64_alphabet with
  | Some c => String c ""
  | None => "="
  end.

(** RFC 4648 base64 with padding, three bytes at a time. *)
Fixpoint b64 (l : list byte) : string :=
  match l with
  | [] => ""
  | [a] =>
      let n := (Byte.to_N a * 65536)%N in
      b64_char (n / 262144) +:+ b64_char ((n / 4096) mod 64) +:+ "=="
  | [a; b] =>
      let n := (Byte.to_N a * 65536 + Byte.to_N b * 256)%N in
      b64_char (n / 262144) +:+ b64_char ((n / 4096) mod 64)
        +:+ b64_char ((n / 64) mod 64) +:+ "="
  | a :: b :: c :: rest =>
      let n := (Byte.to_N a * 65536 + Byte.to_N b * 256 + Byte.to_N c)%N in
      b64_char (n / 262144) +:+ b64_char ((n / 4096) mod 64)
        +:+ b64_char ((n / 64) mod 64) +:+ b64_char (n mod 64) +:+ b64 rest
  end.

(** Starlette's [HTTPException.__str__]. *)
Definition str_http (status_code : Z) (detail : string) : string :=
  pretty status_code +:+ ": " +:+ detail.

(** An environment in which the two providers end as given and the
    insert raises as given. *)
Definition env (openai gemini : call_outcome) (insert_err : option string)
    : Env :=
  {| json_loads := loads;
     b64encode := b64;
     str_HTTPException := str_http;
     uuid4_str := λ n, "uuid-" +:+ pretty n;
     utcnow := 1762200000;
     llm_outcome := λ provider model image_base64,
       if String.eqb provider "openai" then openai else gemini;
     insert_error := λ doc, insert_err;
     object_id := Z.of_nat |}.

(** The first bytes of a PNG file. *)
Definition png_bytes : list byte := [x89; x50; x4e; x47; x0d; x0a].

Definition png : UploadFile :=
  mkUpload (Some "image/png") (Some "test_currency.png") png_bytes.

Definition txt : UploadFile :=
  mkUpload (Some "text/plain") (Some "test.txt") [x54; x68; x69; x73].

Definition alice : User := mkUser "alice".
Definition bob : User := mkUser "bob".

Definition start : State := mkState [] 0 [].

(** Two uploads, alice's then bob's, while OpenAI times out and Gemini
    answers an empty object; and the two records they leave. *)
Definition env_two : Env := env (Raised "timeout") (Replied "{}") None.

Definition after_two : State :=
  snd (analyze_currency env_two png bob
         (snd (analyze_currency env_two png alice start))).

Definition stored_for (n : Z) (id user_id : string) : AnalysisDoc :=
  let r1 := Failed "timeout" "OpenAI GPT-4o-mini" in
  let r2 := PyDict ∅ in
  mkDoc (Some n) id user_id r1 r2
        (mkCombined "dual_ai_analysis" r1 r2 ∅ [])
        1762200000 (Some "test_currency.png").

Definition alice_record : AnalysisDoc := stored_for 0 "uuid-2" "alice".
Definition bob_record : AnalysisDoc := stored_for 1 "uuid-5" "bob".

End Sample.

(** ** The listing and the webhook *)

(** [analysis_collection.find({"id": analysis_id})]: the first document
    with the id, whoever owns it. *)
Definition find_one_by_id (id : string) : M (option AnalysisDoc) :=
  λ st,
    (Ret (List.find (λ doc, bool_decide (doc_id doc = id))
                    (analysis_collection st)),
     st).

(** The dict [webhook_analysis_result] returns. *)
Record WebhookResponse : Type := mkWebhook {
  message : string;
  webhook_analysis_id : string
}.

Definition webhook_analysis_result (analysis_id : string)
    : M WebhookResponse :=
  analysis ← find_one_by_id analysis_id;
  match analysis with
  | None => raise (HTTPException 404 "Analysis not found")
  | Some _ => mret (mkWebhook "Webhook triggered" analysis_id)
  end.

(** [timestamp a >= timestamp b]: the order [.sort("timestamp", -1)] asks
    for. *)
Definition newer_or_same (a b : AnalysisDoc) : Prop :=
  doc_timestamp b ≤ doc_timestamp a.

#[export] Instance newer_or_same_dec (a b : AnalysisDoc)
  : Decision (newer_or_same a b) := Z_le_dec _ _.

(** [list(analysis_collection.find({"user_id": ...}, {"_id": 0})
    .sort("timestamp", -1).limit(10))].  The database's sort is the
    argument [sort_desc]: among records of equal timestamp the order it
    leaves is its own. *)
Definition get_user_analyses
    (sort_desc : list AnalysisDoc → list AnalysisDoc) (current_user : User)
    : M (list AnalysisDoc) :=
  λ st,
    let found :=
      filter (λ doc, doc_user_id doc = username current_user)
             (analysis_collection st) in
    let analyses := pop__id <$> take 10 (sort_desc found) in
    (Ret analyses, st).

(** What the module relies on from the database's sort: the same records,
    newest first. *)
Definition sorts_newest_first
    (sort_desc : list AnalysisDoc → list AnalysisDoc) : Prop :=
  ∀ l, sort_desc l ≡ₚ l ∧ Sorted newer_or_same (sort_desc l).

(** ** Accounts and tokens

    A [datetime] and a [timedelta] are numbers of microseconds. *)

(** [datetime.min] and [datetime.max]: the years 1 to 9999. *)
Definition datetime_min : Z := -62135596800000000.
Definition datetime_max : Z := 253402300799999999.

(** [timedelta.min] and [timedelta.max]: 999999999 days either way. *)
Definition timedelta_min : Z := -86399999913600000000.
Definition timedelta_max : Z := 86399999999999999999.

Definition minutes_us (minutes : Z) : Z := minutes * 60000000.

(** [a_datetime + a_timedelta] *)
Definition datetime_add (t delta : Z) : res Z :=
  if bool_decide (datetime_min ≤ t + delta ≤ datetime_max)
  then Ret (t + delta)
  else Raise (OverflowError "date value out of range").

(** A value among the claims handed to [jwt.encode]: JSON data or a
    [datetime]. *)
Inductive claim : Type :=
| ClaimValue (v : pyval)
| ClaimTime (t : Z).

(** The [UserCreate] model. *)
Record UserCreate : Type := mkUserCreate {
  new_username : string;
  new_password : string
}.

(** The [user_doc] dict literal of [register]; the [_id] the driver adds is
    never read by this module. *)
Record UserDoc : Type := mkUserDoc {
  user_username : string;
  user_hashed_password : string;
  user_created_at : Z
}.

(** The [Token] model. *)
Record Token : Type := mkToken {
  access_token : string;
  token_type : string
}.

(** The password context, the JWT library under the configured key and
    algorithm, the users collection's driver, the configured lifetime and
    the clock, as one request meets them. *)
Record AuthEnv : Type := mkAuthEnv {
  (** [pwd_context.hash], which raises on a password it does not take *)
  pwd_hash : string → res string;
  (** [pwd_context.verify(plain_password, hashed_password)], which raises
      likewise *)
  pwd_verify : string → string → res bool;
  (** [jwt.encode(claims, SECRET_KEY, algorithm=ALGORITHM)] *)
  jwt_encode : gmap string claim → res string;
  (** [jwt.decode(token, SECRET_KEY, algorithms=[ALGORITHM])] at the time of
      the request; [None] when it raises [JWTError] (a bad signature, an
      expired token, a [sub] that is not a string) *)
  jwt_decode : string → option (gmap string pyval);
  ACCESS_TOKEN_EXPIRE_MINUTES : Z;
  (** the n-th [datetime.utcnow()] of the request, the first being the JWT
      library's when the request carries a token *)
  clock : nat → Z;
  (** [Some msg] when [users_collection.insert_one] raises on this
      document *)
  users_insert_error : UserDoc → option string;
  (** [str()] of the [OverflowError] of a [timedelta] of that many minutes *)
  timedelta_overflow_str : Z → string
}.

(** [users_collection.find_one({"username": username})].  Stored usernames
    are strings, so a query value of another type finds nobody. *)
Definition users_find_one (username : pyval) (users : list UserDoc)
    : option UserDoc :=
  List.find (λ user,
               match username with
               | PyStr s => bool_decide (user_username user = s)
               | _ => false
               end) users.

Section Accounts.
Context (auth : AuthEnv).

(** [timedelta(minutes=minutes)] *)
Definition timedelta_minutes (minutes : Z) : res Z :=
  if bool_decide (timedelta_min ≤ minutes_us minutes ≤ timedelta_max)
  then Ret (minutes_us minutes)
  else Raise (OverflowError (timedelta_overflow_str auth minutes)).

Definition verify_password (plain_password hashed_password : string)
    : res bool :=
  pwd_verify auth plain_password hashed_password.

Definition get_password_hash (password : string) : res string :=
  pwd_hash auth password.

(** [now] is what [datetime.utcnow()] returns inside the call.  A
    [timedelta] of zero is falsy, like [None]. *)
Definition create_access_token (now : Z) (data : gmap string claim)
    (expires_delta : option Z) : res string :=
  let to_encode := data in
  expire ←
    match expires_delta with
    | Some delta =>
        if bool_decide (delta ≠ 0) then datetime_add now delta
        else datetime_add now (minutes_us 15)
    | None => datetime_add now (minutes_us 15)
    end;
  let to_encode := <["exp" := ClaimTime expire]> to_encode in
  jwt_encode auth to_encode.

Definition get_current_user (credentials : string) (users : list UserDoc)
    : res UserDoc :=
  let credentials_exception :=
    HTTPException 401 "Could not validate credentials" in
  match jwt_decode auth credentials with
  | None => Raise credentials_exception
  | Some payload =>
      match payload !! "sub" with
      | None => Raise credentials_exception
      | Some PyNone => Raise credentials_exception
      | Some username =>
          match users_find_one username users with
          | None => Raise credentials_exception
          | Some user => Ret user
          end
      end
  end.

(** [users_collection.insert_one(user_doc)]: the collection is passed in and
    handed back, the document's [datetime] kept to the millisecond. *)
Definition users_insert_one (user_doc : UserDoc) (users : list UserDoc)
    : res unit * list UserDoc :=
  match users_insert_error auth user_doc with
  | Some msg => (Raise (LibraryError msg), users)
  | None =>
      (Ret tt,
       users ++ [mkUserDoc (user_username user_doc)
                           (user_hashed_password user_doc)
                           (bson_datetime (user_created_at user_doc))])
  end.

(** The lines [register] and [login] both end with: the lifetime, the
    token, the returned dict. *)
Definition issue_token (now : Z) (username : string) : res Token :=
  access_token_expires ←
    timedelta_minutes (ACCESS_TOKEN_EXPIRE_MINUTES auth);
  access_token ←
    create_access_token now {[ "sub" := ClaimValue (PyStr username) ]}
                        (Some access_token_expires);
  mret {| access_token := access_token; token_type := "bearer" |}.

Definition register (user : UserCreate) (users : list UserDoc)
    : res Token * list UserDoc :=
  match users_find_one (PyStr (new_username user)) users with
  | Some _ =>
      (Raise (HTTPException 400 "Username already registered"), users)
  | None =>
      match get_password_hash (new_password user) with
      | Raise e => (Raise e, users)
      | Ret hashed_password =>
          let user_doc :=
            {| user_username := new_username user;
               user_hashed_password := hashed_password;
               user_created_at := clock auth 0 |} in
          match users_insert_one user_doc users with
          | (Raise e, users) => (Raise e, users)
          | (Ret _, users) =>
              (access_token_expires ←
                 timedelta_minutes (ACCESS_TOKEN_EXPIRE_MINUTES auth);
               access_token ←
                 create_access_token (clock auth 1)
                   {[ "sub" := ClaimValue (PyStr (new_username user)) ]}
                   (Some access_token_expires);
               mret {| access_token := access_token;
                       token_type := "bearer" |},
               users)
          end
      end
  end.

Definition login (user : UserCreate) (users : list UserDoc) : res Token :=
  match users_find_one (PyStr (new_username user)) users with
  | None => Raise (HTTPException 401 "Incorrect username or password")
  | Some db_user =>
      verified ← verify_password (new_password user)
                                 (user_hashed_password db_user);
      if negb verified
      then Raise (HTTPException 401 "Incorrect username or password")
      else
        access_token_expires ←
          timedelta_minutes (ACCESS_TOKEN_EXPIRE_MINUTES auth);
        access_token ←
          create_access_token (clock auth 0)
            {[ "sub" := ClaimValue (PyStr (new_username user)) ]}
            (Some access_token_expires);
        mret {| access_token := access_token; token_type := "bearer" |}
  end.

End Accounts.

(** ** A concrete environment for the account examples *)

Module SampleAuth.

(** A stand-in for the JWT library: the token spells out its subject. *)
Definition encode (claims : gmap string claim) : res string :=
  match claims !! "sub" with
  | Some (ClaimValue (PyStr sub)) => Ret ("jwt:" +:+ sub)
  | _ => Ret "jwt:"
  end.

Definition decode (token : string) : option (gmap string pyval) :=
  if String.prefix "jwt:" token
  then Some {[ "sub" := PyStr (String.substring 4 (String.length token - 4)
                                                token) ]}
  else None.

Fixpoint has_nul (s : string) : bool :=
  match s with
  | EmptyString => false
  | String c s' => Ascii.eqb c Ascii.zero || has_nul s'
  end.

(** A stand-in for the password context: like bcrypt it takes no NUL. *)
Definition hash (password : string) : res string :=
  if has_nul password
  then Raise (LibraryError "bcrypt does not allow NULL bytes in password")
  else Ret ("bcrypt$" +:+ password).

Definition verify (plain_password hashed_password : string) : res bool :=
  if has_nul plain_password
  then Raise (LibraryError "bcrypt does not allow NULL bytes in password")
  else Ret (String.eqb hashed_password ("bcrypt$" +:+ plain_password)).

Definition auth (minutes : Z) : AuthEnv :=
  {| pwd_hash := hash;
     pwd_verify := verify;
     jwt_encode := encode;
     jwt_decode := decode;
     ACCESS_TOKEN_EXPIRE_MINUTES := minutes;
     clock := λ n, 1762200000123456 + Z.of_nat n;
     users_insert_error := λ user_doc, None;
     timedelta_overflow_str :=
       λ minutes, "Python int too large to convert to C int" |}.

Definition alice : UserCreate := mkUserCreate "alice" "TestPass123!".
Definition bob : UserCreate := mkUserCreate "bob" "hunter2".

Definition alice_doc : UserDoc :=
  mkUserDoc "alice" "bcrypt$TestPass123!" 1762200000123000.

(** Records of one user at distinct times, for the listing. *)
Definition record_at (id user_id : string) (t : Z) : AnalysisDoc :=
  mkDoc (Some t) id user_id (PyDict ∅) (PyDict ∅)
        (mkCombined "dual_ai_analysis" (PyDict ∅) (PyDict ∅) ∅ [])
        t None.

Definition history : State :=
  mkState [record_at "a" "alice" 3; record_at "b" "bob" 9;
           record_at "c" "alice" 7; record_at "d" "alice" 5] 0 [].

(** Eleven records of alice, one more than the listing shows. *)
Definition long_history : State :=
  mkState ((λ n, record_at ("k" +:+ pretty n) "alice" (Z.of_nat n))
             <$> seq 1 11) 0 [].

Definition sort_desc : list AnalysisDoc → list AnalysisDoc :=
  merge_sort newer_or_same.

(** [Sample.env_two] with the clock at a reading that has microseconds. *)
Definition env_456 : Env :=
  mkEnv (json_loads Sample.env_two) (b64encode Sample.env_two)
        (str_HTTPException Sample.env_two) (uuid4_str Sample.env_two)
        1762200000123456 (llm_outcome Sample.env_two)
        (insert_error Sample.env_two) (object_id Sample.env_two).

End SampleAuth.

(** ** Properties of the combiner *)

Lemma combine_structured (r1 r2 : pyval) (l1 l2 : list pyval) :
  Structured r1 l1 → Structured r2 l2 →
  combine_ai_results r1 r2 =
    let combined := mkCombined "dual_ai_analysis" r1 r2 ∅ [] in
    if negb (length l1 =? 0)%nat && negb (length l2 =? 0)%nat then
      if (length l1 =? length l2)%nat then
        Ret (consensus_setitem "currency_count_match" (PyBool true) combined)
      else
        Ret (discrepancies_append "Different number of currencies detected"
                                  combined)
    else Ret combined.
Proof.
  intros (d1 & -> & H1) (d2 & -> & H2).
  unfold combine_ai_results, py_get. rewrite H1, H2. reflexivity.
Qed.

(** The specification's scenario of two unparseable responses: nothing is
    compared. *)
Example combine_both_raw (t1 t2 : string) :
  combine_ai_results (RawFallback t1 "OpenAI GPT-4o-mini")
                     (RawFallback t2 "Google Gemini 2.0 Flash")
    = Ret (mkCombined "dual_ai_analysis"
             (RawFallback t1 "OpenAI GPT-4o-mini")
             (RawFallback t2 "Google Gemini 2.0 Flash") ∅ []).
Proof. reflexivity. Qed.

(** A truthy [currencies_detected] that has no length makes [len] raise. *)
Example combine_unsized :
  combine_ai_results (PyDict {[ "currencies_detected" := PyInt 2 ]})
                     (PyDict {[ "currencies_detected" := PyInt 2 ]})
    = Raise (TypeError "object of type 'int' has no len()").
Proof. reflexivity. Qed.

(** C1, as stated, fails on two empty detection lists: they have equal
    length, yet the consensus mapping stays empty. *)
Lemma empty_lists_no_consensus :
  Structured (Sample.detected []) [] ∧
  ∃ c, combine_ai_results (Sample.detected []) (Sample.detected []) = Ret c
       ∧ consensus c !! "currency_count_match" = None.
Proof.
  split.
  - eexists. split; reflexivity.
  - eexists. split; reflexivity.
Qed.

(** C1 (amended): two Structured results whose detection lists are
    non-empty and of equal length give [currency_count_match = True] in the
    consensus and no discrepancy. *)
Theorem combine_equal_count (r1 r2 : pyval) (l1 l2 : list pyval) :
  Structured r1 l1 → Structured r2 l2 →
  l1 ≠ [] → length l1 = length l2 →
  ∃ c, combine_ai_results r1 r2 = Ret c
       ∧ consensus c !! "currency_count_match" = Some (PyBool true)
       ∧ discrepancies c = [].
Proof.
  intros S1 S2 Hne Hlen.
  rewrite (combine_structured _ _ _ _ S1 S2). cbv zeta.
  rewrite <- Hlen, Nat.eqb_refl.
  destruct l1 as [|x l1]; [done|]. simpl.
  eexists. split; [reflexivity|]. split; [|reflexivity].
  simpl. apply lookup_insert_eq.
Qed.

Lemma combine_equal_count_witness :
  ∃ c, combine_ai_results (Sample.detected [Sample.usd20])
                          (Sample.detected [Sample.usd20]) = Ret c
       ∧ consensus c !! "currency_count_match" = Some (PyBool true)
       ∧ discrepancies c = [].
Proof.
  apply (combine_equal_count _ _ [Sample.usd20] [Sample.usd20]).
  - eexists. split; reflexivity.
  - eexists. split; reflexivity.
  - discriminate.
  - reflexivity.
Defined.

(** C2, as stated, fails when one detection list is empty: the lengths
    differ, yet no discrepancy is recorded. *)
Lemma one_empty_list_no_discrepancy :
  Structured (Sample.detected []) [] ∧
  Structured (Sample.detected [Sample.usd20]) [Sample.usd20] ∧
  ∃ c, combine_ai_results (Sample.detected [])
                          (Sample.detected [Sample.usd20]) = Ret c
       ∧ discrepancies c = [].
Proof.
  split; [|split].
  - eexists. split; reflexivity.
  - eexists. split; reflexivity.
  - eexists. split; reflexivity.
Qed.

(** C2 (amended): two Structured results whose detection lists are both
    non-empty and of different lengths give exactly the one discrepancy
    "Different number of currencies detected", and the consensus has no
    [currency_count_match] key. *)
Theorem combine_different_count (r1 r2 : pyval) (l1 l2 : list pyval) :
  Structured r1 l1 → Structured r2 l2 →
  l1 ≠ [] → l2 ≠ [] → length l1 ≠ length l2 →
  ∃ c, combine_ai_results r1 r2 = Ret c
       ∧ discrepancies c = ["Different number of currencies detected"]
       ∧ consensus c !! "currency_count_match" = None.
Proof.
  intros S1 S2 Hne1 Hne2 Hlen.
  rewrite (combine_structured _ _ _ _ S1 S2). cbv zeta.
  apply Nat.eqb_neq in Hlen. rewrite Hlen.
  destruct l1 as [|x1 l1]; [done|]. destruct l2 as [|x2 l2]; [done|].
  simpl. eexists. split; [reflexivity|]. split; reflexivity.
Qed.

Lemma combine_different_count_witness :
  ∃ c, combine_ai_results (Sample.detected [Sample.usd20])
                          (Sample.detected [Sample.usd20; Sample.eur5]) = Ret c
       ∧ discrepancies c = ["Different number of currencies detected"]
       ∧ consensus c !! "currency_count_match" = None.
Proof.
  apply (combine_different_count _ _ [Sample.usd20]
                                 [Sample.usd20; Sample.eur5]).
  - eexists. split; reflexivity.
  - eexists. split; reflexivity.
  - discriminate.
  - discriminate.
  - simpl. lia.
Defined.

(** ** Properties of the provider adapters *)

Lemma analyze_with_openai_run (env : Env) (image_base64 : string) (st : State) :
  analyze_with_openai env image_base64 st =
    (Ret (adapter_contract env "OpenAI GPT-4o-mini"
            (llm_outcome env "openai" "gpt-4o-mini" image_base64)),
     after_call env "openai" "gpt-4o-mini" "openai-currency-" image_base64 st).
Proof.
  unfold analyze_with_openai, try_except, send_message, adapter_contract,
    after_call, uuid4, log, raise, mbind, M_bind, mret, M_ret.
  simpl.
  destruct (llm_outcome env "openai" "gpt-4o-mini" image_base64)
    as [response|error]; simpl; [|reflexivity].
  destruct (json_loads env response); reflexivity.
Qed.

Lemma analyze_with_gemini_run (env : Env) (image_base64 : string) (st : State) :
  analyze_with_gemini env image_base64 st =
    (Ret (adapter_contract env "Google Gemini 2.0 Flash"
            (llm_outcome env "gemini" "gemini-2.0-flash" image_base64)),
     after_call env "gemini" "gemini-2.0-flash" "gemini-currency-"
                image_base64 st).
Proof.
  unfold analyze_with_gemini, try_except, send_message, adapter_contract,
    after_call, uuid4, log, raise, mbind, M_bind, mret, M_ret.
  simpl.
  destruct (llm_outcome env "gemini" "gemini-2.0-flash" image_base64)
    as [response|error]; simpl; [|reflexivity].
  destruct (json_loads env response); reflexivity.
Qed.

(** C5, as stated, fails on a response that is valid JSON but not an
    object: on the text 42 the adapter returns the number 42 itself, which
    is none of the three variants (it lists no detections and has no
    [provider] field). *)
Lemma adapter_returns_bare_number :
  fst (analyze_with_openai (Sample.env (Replied "42") (Replied "{}") None)
                           "iVBORw0K" Sample.start)
    = Ret (PyInt 42)
  ∧ (¬ ∃ detections, Structured (PyInt 42) detections)
  ∧ (∀ raw_text provider, PyInt 42 ≠ RawFallback raw_text provider)
  ∧ (∀ error_message provider, PyInt 42 ≠ Failed error_message provider)
  ∧ provider_field (PyInt 42) = None.
Proof.
  split; [reflexivity|]. split.
  - intros (detections & d & Hd & _). discriminate Hd.
  - split; [intros raw_text provider; discriminate|].
    split; [intros error_message provider; discriminate|reflexivity].
Qed.

(** C5 (amended): whatever the outcome of its call, each adapter returns a
    value and raises no [Exception]: when the response parses, the parsed
    JSON value exactly as the provider sent it, which is a Structured result
    precisely when that value is one; the RawFallback carrying the unparsed
    text and the provider's name when it does not parse; the Failed variant
    carrying the error's string and the provider's name when the call
    raised. *)
Theorem adapters_always_return (env : Env) (image_base64 : string) (st : State) :
  (∃ r st',
     analyze_with_openai env image_base64 st = (Ret r, st') ∧
     match llm_outcome env "openai" "gpt-4o-mini" image_base64 with
     | Replied response =>
         match json_loads env response with
         | Some parsed =>
             r = parsed
             ∧ ∀ detections,
                 Structured r detections ↔ Structured parsed detections
         | None => r = RawFallback response "OpenAI GPT-4o-mini"
         end
     | Raised error => r = Failed error "OpenAI GPT-4o-mini"
     end) ∧
  (∃ r st',
     analyze_with_gemini env image_base64 st = (Ret r, st') ∧
     match llm_outcome env "gemini" "gemini-2.0-flash" image_base64 with
     | Replied response =>
         match json_loads env response with
         | Some parsed =>
             r = parsed
             ∧ ∀ detections,
                 Structured r detections ↔ Structured parsed detections
         | None => r = RawFallback response "Google Gemini 2.0 Flash"
         end
     | Raised error => r = Failed error "Google Gemini 2.0 Flash"
     end).
Proof.
  split.
  - rewrite analyze_with_openai_run. do 2 eexists. split; [reflexivity|].
    unfold adapter_contract.
    destruct (llm_outcome env "openai" "gpt-4o-mini" image_base64)
      as [response|error]; [|reflexivity].
    destruct (json_loads env response); [|reflexivity].
    split; [reflexivity|]. intros detections. reflexivity.
  - rewrite analyze_with_gemini_run. do 2 eexists. split; [reflexivity|].
    unfold adapter_contract.
    destruct (llm_outcome env "gemini" "gemini-2.0-flash" image_base64)
      as [response|error]; [|reflexivity].
    destruct (json_loads env response); [|reflexivity].
    split; [reflexivity|]. intros detections. reflexivity.
Qed.

(** ** Properties of the request handler *)

(** The handler on an upload whose content type starts with [image/],
    step by step. *)
Lemma analyze_currency_image (env : Env) (file : UploadFile) (user : User)
    (st : State) :
  is_image file →
  analyze_currency env file user st =
    let image_base64 := convert_image_to_base64 env (file_bytes file) in
    let r1 := adapter_contract env "OpenAI GPT-4o-mini"
                               (openai_outcome env file) in
    let r2 := adapter_contract env "Google Gemini 2.0 Flash"
                               (gemini_outcome env file) in
    let st1 := mkState (analysis_collection st) (uuid_count st)
                       (trace st ++ [EvEncode (file_bytes file)]) in
    let st2 := after_call env "gemini" "gemini-2.0-flash" "gemini-currency-"
                 image_base64
                 (after_call env "openai" "gpt-4o-mini" "openai-currency-"
                             image_base64 st1) in
    match combine_ai_results r1 r2 with
    | Raise e => (Raise (HTTPException 500 (exn_str env e)), st2)
    | Ret c =>
        let doc := mkDoc None (uuid4_str env (uuid_count st2)) (username user)
                         r1 r2 c (utcnow env) (filename file) in
        let st3 := mkState (analysis_collection st2) (S (uuid_count st2))
                           (trace st2 ++ [EvInsertOne doc]) in
        match insert_error env doc with
        | Some msg => (Raise (HTTPException 500 msg), st3)
        | None =>
            (Ret (mkResponse (doc_id doc) r1 r2 c (utcnow env)),
             mkState (analysis_collection st3
                        ++ [mkDoc (Some (object_id env
                                           (length (analysis_collection st3))))
                                  (doc_id doc) (username user) r1 r2 c
                                  (bson_datetime (utcnow env))
                                  (filename file)])
                     (uuid_count st3) (trace st3))
        end
    end.
Proof.
  intros (ct & Hct & Hprefix).
  unfold analyze_currency, try_except, content_type_startswith, lift.
  unfold mbind at 1. unfold M_bind at 1. rewrite Hct, Hprefix.
  change (negb true) with false. cbv beta iota.
  unfold mbind at 1. unfold M_bind at 1.
  unfold call_convert_image_to_base64, log.
  unfold mbind at 1. unfold M_bind at 1. unfold mret at 1. unfold M_ret at 1.
  cbv beta iota.
  unfold mbind at 1. unfold M_bind at 1. unfold gather at 1.
  cbv beta iota.
  rewrite analyze_with_openai_run, analyze_with_gemini_run.
  unfold openai_outcome, gemini_outcome. cbv zeta.
  unfold mbind at 1. unfold M_bind at 1.
  destruct (combine_ai_results _ _) as [c|e]; [|reflexivity].
  unfold mbind, M_bind, mret, M_ret, uuid4, insert_one, log, raise. simpl.
  destruct (insert_error env _); reflexivity.
Qed.

Lemma analyze_currency_not_image (env : Env) (file : UploadFile) (user : User)
    (st : State) (ct : string) :
  content_type file = Some ct → String.prefix "image/" ct = false →
  analyze_currency env file user st =
    (Raise (HTTPException 500
              (str_HTTPException env 400 "File must be an image")), st).
Proof.
  intros Hct Hprefix.
  unfold analyze_currency, try_except, content_type_startswith, lift.
  unfold mbind, M_bind. rewrite Hct, Hprefix. reflexivity.
Qed.

(** C3: on the upload of a [text/plain] file the handler stops before any
    provider call (the state, trace included, is untouched), but the
    [HTTPException] with status 400 raised by the validation is caught by
    the handler's own [except Exception] and reported with status 500, the
    status a failed store write is reported with. *)
Theorem analyze_non_image_reported_as_500 :
  analyze_currency (Sample.env (Replied "{}") (Replied "{}") None)
                   Sample.txt Sample.alice Sample.start
    = (Raise (HTTPException 500 "400: File must be an image"), Sample.start)
  ∧ ∃ st',
      analyze_currency
        (Sample.env (Replied "{}") (Replied "{}") (Some "connection refused"))
        Sample.png Sample.alice Sample.start
      = (Raise (HTTPException 500 "connection refused"), st').
Proof.
  split.
  - rewrite (analyze_currency_not_image _ _ _ _ "text/plain")
      by reflexivity.
    vm_compute. reflexivity.
  - eexists. rewrite analyze_currency_image.
    + reflexivity.
    + exists "image/png". split; reflexivity.
Qed.

Lemma provider_field_RawFallback (raw_text provider : string) :
  provider_field (RawFallback raw_text provider) = Some (PyStr provider).
Proof. reflexivity. Qed.

Lemma provider_field_Failed (error_message provider : string) :
  provider_field (Failed error_message provider) = Some (PyStr provider).
Proof. reflexivity. Qed.

Lemma adapter_contract_parsed (env : Env) (provider : string)
    (outcome : call_outcome) :
  match parsed env outcome with
  | Some v => adapter_contract env provider outcome = v
  | None =>
      provider_field (adapter_contract env provider outcome)
        = Some (PyStr provider)
  end.
Proof.
  destruct outcome as [response|error]; simpl.
  - destruct (json_loads env response); [reflexivity|].
    apply provider_field_RawFallback.
  - apply (provider_field_Failed error).
Qed.

Lemma gather_adapters (env : Env) (image_base64 : string) (st : State) :
  gather (analyze_with_openai env image_base64)
         (analyze_with_gemini env image_base64) st =
    (Ret (adapter_contract env "OpenAI GPT-4o-mini"
            (llm_outcome env "openai" "gpt-4o-mini" image_base64),
          adapter_contract env "Google Gemini 2.0 Flash"
            (llm_outcome env "gemini" "gemini-2.0-flash" image_base64)),
     after_call env "gemini" "gemini-2.0-flash" "gemini-currency-"
       image_base64
       (after_call env "openai" "gpt-4o-mini" "openai-currency-"
                   image_base64 st)).
Proof.
  unfold gather.
  rewrite analyze_with_openai_run, analyze_with_gemini_run. reflexivity.
Qed.

(** C4, as stated, fails on a provider whose JSON object has no [provider]
    key: the handler returns that object as the provider's result. *)
Lemma analyze_structured_without_provider :
  ∃ resp st',
    analyze_currency (Sample.env (Replied "{}") (Replied "{}") None)
                     Sample.png Sample.alice Sample.start = (Ret resp, st')
    ∧ openai_result resp = PyDict ∅
    ∧ provider_field (openai_result resp) = None.
Proof.
  do 2 eexists. rewrite analyze_currency_image.
  - split; [reflexivity|]. split; reflexivity.
  - exists "image/png". split; reflexivity.
Qed.

(** C4 (amended): for every outcome of the two provider calls the fan-out
    yields exactly one result per provider, in provider order; a result made
    from a raised error or an unparseable response carries the [provider]
    field naming its provider, while a parsed response is passed on as the
    provider sent it, with a [provider] field only if the provider put one;
    and these two results are the ones the handler returns, which it does
    whenever the upload is an image, the combiner accepts the two results
    and the store write succeeds. *)
Theorem analyze_one_result_per_provider (env : Env) (file : UploadFile)
    (user : User) (st : State) :
  let image_base64 := convert_image_to_base64 env (file_bytes file) in
  let r1 := adapter_contract env "OpenAI GPT-4o-mini"
                             (openai_outcome env file) in
  let r2 := adapter_contract env "Google Gemini 2.0 Flash"
                             (gemini_outcome env file) in
  (∃ st', gather (analyze_with_openai env image_base64)
                 (analyze_with_gemini env image_base64) st
          = (Ret (r1, r2), st'))
  ∧ (parsed env (openai_outcome env file) = None →
     provider_field r1 = Some (PyStr "OpenAI GPT-4o-mini"))
  ∧ (parsed env (gemini_outcome env file) = None →
     provider_field r2 = Some (PyStr "Google Gemini 2.0 Flash"))
  ∧ (∀ v, parsed env (openai_outcome env file) = Some v → r1 = v)
  ∧ (∀ v, parsed env (gemini_outcome env file) = Some v → r2 = v)
  ∧ (is_image file →
     (∀ doc, insert_error env doc = None) →
     ∀ c, combine_ai_results r1 r2 = Ret c →
     ∃ resp st',
       analyze_currency env file user st = (Ret resp, st')
       ∧ openai_result resp = r1 ∧ gemini_result resp = r2).
Proof.
  intros image_base64 r1 r2.
  pose proof (adapter_contract_parsed env "OpenAI GPT-4o-mini"
                (openai_outcome env file)) as H1.
  pose proof (adapter_contract_parsed env "Google Gemini 2.0 Flash"
                (gemini_outcome env file)) as H2.
  fold r1 in H1. fold r2 in H2.
  repeat split.
  - eexists. apply gather_adapters.
  - intros Hp. rewrite Hp in H1. exact H1.
  - intros Hp. rewrite Hp in H2. exact H2.
  - intros v Hp. rewrite Hp in H1. exact H1.
  - intros v Hp. rewrite Hp in H2. exact H2.
  - intros Himg Hins c Hc.
    rewrite (analyze_currency_image env file user st Himg). cbv zeta.
    fold r1 r2. rewrite Hc, Hins. do 2 eexists. repeat split.
Qed.

Lemma analyze_one_result_per_provider_witness :
  provider_field (adapter_contract
                    (Sample.env (Replied "no currency") (Raised "quota") None)
                    "OpenAI GPT-4o-mini" (Replied "no currency"))
    = Some (PyStr "OpenAI GPT-4o-mini")
  ∧ ∃ resp st',
      analyze_currency
        (Sample.env (Replied "no currency") (Raised "quota") None)
        Sample.png Sample.alice Sample.start = (Ret resp, st')
      ∧ openai_result resp = RawFallback "no currency" "OpenAI GPT-4o-mini"
      ∧ gemini_result resp = Failed "quota" "Google Gemini 2.0 Flash".
Proof.
  pose proof (analyze_one_result_per_provider
                (Sample.env (Replied "no currency") (Raised "quota") None)
                Sample.png Sample.alice Sample.start)
    as (_ & Htag & _ & _ & _ & Hret).
  split.
  - apply Htag. reflexivity.
  - apply (Hret (ex_intro _ "image/png" (conj eq_refl eq_refl))
                (λ _, eq_refl)
                (mkCombined "dual_ai_analysis"
                   (RawFallback "no currency" "OpenAI GPT-4o-mini")
                   (Failed "quota" "Google Gemini 2.0 Flash") ∅ [])).
    reflexivity.
Defined.

Lemma combine_both_failed (e1 p1 e2 p2 : string) :
  combine_ai_results (Failed e1 p1) (Failed e2 p2) =
    Ret (mkCombined "dual_ai_analysis" (Failed e1 p1) (Failed e2 p2) ∅ []).
Proof. reflexivity. Qed.

(** C6: when both provider calls raise on an image upload, the combiner
    still produces a CombinedAnalysis with empty consensus and empty
    discrepancies, the handler goes on to write the record holding it, and,
    the write not raising, the handler returns normally with the two Failed
    results and that CombinedAnalysis, the record being in the collection
    afterwards. *)
Theorem analyze_both_failed (env : Env) (file : UploadFile) (user : User)
    (st : State) (e1 e2 : string) :
  is_image file →
  openai_outcome env file = Raised e1 →
  gemini_outcome env file = Raised e2 →
  let f1 := Failed e1 "OpenAI GPT-4o-mini" in
  let f2 := Failed e2 "Google Gemini 2.0 Flash" in
  (∃ r st' before doc,
     analyze_currency env file user st = (r, st')
     ∧ trace st' = before ++ [EvInsertOne doc]
     ∧ doc_openai_result doc = f1 ∧ doc_gemini_result doc = f2
     ∧ consensus (doc_combined_analysis doc) = ∅
     ∧ discrepancies (doc_combined_analysis doc) = [])
  ∧ ((∀ doc, insert_error env doc = None) →
     ∃ resp st' stored,
       analyze_currency env file user st = (Ret resp, st')
       ∧ openai_result resp = f1 ∧ gemini_result resp = f2
       ∧ consensus (combined_analysis resp) = ∅
       ∧ discrepancies (combined_analysis resp) = []
       ∧ analysis_collection st' = analysis_collection st ++ [stored]
       ∧ doc_id stored = analysis_id resp
       ∧ doc_user_id stored = username user
       ∧ doc_openai_result stored = f1 ∧ doc_gemini_result stored = f2
       ∧ doc_combined_analysis stored = combined_analysis resp).
Proof.
  intros Himg H1 H2 f1 f2. subst f1 f2.
  rewrite (analyze_currency_image env file user st Himg). cbv zeta.
  rewrite H1, H2. cbn [adapter_contract].
  rewrite combine_both_failed. cbv beta iota.
  split.
  - destruct (insert_error env _); do 4 eexists;
      (split; [reflexivity|]); simpl; repeat split.
  - intros Hins. rewrite Hins. do 3 eexists.
    split; [reflexivity|]. simpl. repeat split.
Qed.

Lemma analyze_both_failed_witness :
  ∃ resp st' stored,
    analyze_currency (Sample.env (Raised "invalid api key")
                                 (Raised "quota exceeded") None)
                     Sample.png Sample.alice Sample.start = (Ret resp, st')
    ∧ openai_result resp = Failed "invalid api key" "OpenAI GPT-4o-mini"
    ∧ gemini_result resp = Failed "quota exceeded" "Google Gemini 2.0 Flash"
    ∧ consensus (combined_analysis resp) = ∅
    ∧ discrepancies (combined_analysis resp) = []
    ∧ analysis_collection st'
        = analysis_collection Sample.start ++ [stored]
    ∧ doc_id stored = analysis_id resp
    ∧ doc_user_id stored = username Sample.alice
    ∧ doc_openai_result stored
        = Failed "invalid api key" "OpenAI GPT-4o-mini"
    ∧ doc_gemini_result stored
        = Failed "quota exceeded" "Google Gemini 2.0 Flash"
    ∧ doc_combined_analysis stored = combined_analysis resp.
Proof.
  refine (proj2 (analyze_both_failed
                   (Sample.env (Raised "invalid api key")
                               (Raised "quota exceeded") None)
                   Sample.png Sample.alice Sample.start
                   "invalid api key" "quota exceeded" _ _ _) _).
  - exists "image/png". split; reflexivity.
  - reflexivity.
  - reflexivity.
  - intros doc. reflexivity.
Defined.

Lemma analyze_currency_no_content_type (env : Env) (file : UploadFile)
    (user : User) (st : State) :
  content_type file = None →
  analyze_currency env file user st =
    (Raise (HTTPException 500
              "'NoneType' object has no attribute 'startswith'"), st).
Proof.
  intros Hct.
  unfold analyze_currency, try_except, content_type_startswith, lift.
  unfold mbind, M_bind. rewrite Hct. reflexivity.
Qed.

(** C7: when the store write raises, the handler reports a failure (an
    [HTTPException] with status 500) whatever the request, and leaves the
    collection as it was; in particular when the upload is an image and both
    provider results went through the combiner, the failure reported
    carries the store's error. *)
Theorem analyze_store_write_fails (env : Env) (file : UploadFile)
    (user : User) (st : State) (msg : string) :
  (∀ doc, insert_error env doc = Some msg) →
  ∃ detail st',
    analyze_currency env file user st
      = (Raise (HTTPException 500 detail), st')
    ∧ analysis_collection st' = analysis_collection st
    ∧ (is_image file →
       ∀ c, combine_ai_results
              (adapter_contract env "OpenAI GPT-4o-mini"
                                (openai_outcome env file))
              (adapter_contract env "Google Gemini 2.0 Flash"
                                (gemini_outcome env file)) = Ret c →
       detail = msg).
Proof.
  intros Hins.
  destruct (content_type file) as [ct|] eqn:Hct.
  - destruct (String.prefix "image/" ct) eqn:Hprefix.
    + assert (Himg : is_image file) by (exists ct; split; assumption).
      rewrite (analyze_currency_image env file user st Himg). cbv zeta.
      destruct (combine_ai_results _ _) as [c|e].
      * rewrite Hins. do 2 eexists. split; [reflexivity|].
        split; [reflexivity|]. intros _ c' Hc'. reflexivity.
      * do 2 eexists. split; [reflexivity|].
        split; [reflexivity|]. intros _ c' Hc'. discriminate.
    + rewrite (analyze_currency_not_image env file user st ct Hct Hprefix).
      do 2 eexists. split; [reflexivity|]. split; [reflexivity|].
      intros (ct' & Hct' & Hp'). congruence.
  - rewrite (analyze_currency_no_content_type env file user st Hct).
    do 2 eexists. split; [reflexivity|]. split; [reflexivity|].
    intros (ct' & Hct' & Hp'). congruence.
Qed.

Lemma analyze_store_write_fails_witness :
  ∃ detail st',
    analyze_currency
      (Sample.env (Replied "{}") (Replied "{}") (Some "connection refused"))
      Sample.png Sample.alice Sample.start
      = (Raise (HTTPException 500 detail), st')
    ∧ analysis_collection st' = analysis_collection Sample.start
    ∧ detail = "connection refused".
Proof.
  destruct (analyze_store_write_fails
              (Sample.env (Replied "{}") (Replied "{}")
                          (Some "connection refused"))
              Sample.png Sample.alice Sample.start "connection refused"
              (λ _, eq_refl))
    as (detail & st' & Hrun & Hcoll & Hdetail).
  exists detail, st'. split; [exact Hrun|]. split; [exact Hcoll|].
  apply (Hdetail (ex_intro _ "image/png" (conj eq_refl eq_refl))
                 (mkCombined "dual_ai_analysis" (PyDict ∅) (PyDict ∅) ∅ [])).
  reflexivity.
Defined.

Lemma py_get_Failed (e p : string) :
  py_get (Failed e p) "currencies_detected" (PyList []) = Ret (PyList []).
Proof. reflexivity. Qed.

Lemma combine_failed_left (e p : string) (d : gmap string pyval) :
  combine_ai_results (Failed e p) (PyDict d) =
    Ret (mkCombined "dual_ai_analysis" (Failed e p) (PyDict d) ∅ []).
Proof. reflexivity. Qed.

Lemma combine_failed_right (d : gmap string pyval) (e p : string) :
  combine_ai_results (PyDict d) (Failed e p) =
    Ret (mkCombined "dual_ai_analysis" (PyDict d) (Failed e p) ∅ []).
Proof.
  unfold combine_ai_results. rewrite py_get_Failed.
  cbn [py_get mbind res_bind truthy length Nat.eqb negb].
  rewrite andb_false_r. reflexivity.
Qed.

(** C9: on an image upload the bytes are encoded once, by [b64encode],
    both adapters are called on that one encoded string, under session ids
    made of the first two uuids, and only then does the handler combine:
    what it stores and returns are the two adapters' results and the
    combiner's output on them.  An adapter whose call raised does not keep
    the other adapter's result from being returned. *)
Theorem analyze_fan_out (env : Env) (file : UploadFile) (user : User)
    (st : State) :
  is_image file →
  let image_base64 := b64encode env (file_bytes file) in
  let outcome1 := llm_outcome env "openai" "gpt-4o-mini" image_base64 in
  let outcome2 := llm_outcome env "gemini" "gemini-2.0-flash" image_base64 in
  let r1 := adapter_contract env "OpenAI GPT-4o-mini" outcome1 in
  let r2 := adapter_contract env "Google Gemini 2.0 Flash" outcome2 in
  ∃ r st' rest,
    analyze_currency env file user st = (r, st')
    ∧ trace st' =
        trace st
        ++ [EvEncode (file_bytes file);
            EvSendMessage "openai" "gpt-4o-mini"
              ("openai-currency-" +:+ uuid4_str env (uuid_count st))
              image_base64;
            EvSendMessage "gemini" "gemini-2.0-flash"
              ("gemini-currency-" +:+ uuid4_str env (S (uuid_count st)))
              image_base64]
        ++ rest
    ∧ match combine_ai_results r1 r2 with
      | Ret c =>
          ∃ doc, rest = [EvInsertOne doc]
                 ∧ doc_openai_result doc = r1 ∧ doc_gemini_result doc = r2
                 ∧ doc_combined_analysis doc = c
      | Raise _ => rest = []
      end
    ∧ (∀ resp, r = Ret resp →
         openai_result resp = r1 ∧ gemini_result resp = r2
         ∧ combine_ai_results r1 r2 = Ret (combined_analysis resp))
    ∧ (∀ e d, outcome1 = Raised e → r2 = PyDict d →
         (∀ doc, insert_error env doc = None) →
         ∃ resp, r = Ret resp
                 ∧ openai_result resp = Failed e "OpenAI GPT-4o-mini"
                 ∧ gemini_result resp = PyDict d)
    ∧ (∀ e d, outcome2 = Raised e → r1 = PyDict d →
         (∀ doc, insert_error env doc = None) →
         ∃ resp, r = Ret resp
                 ∧ openai_result resp = PyDict d
                 ∧ gemini_result resp = Failed e "Google Gemini 2.0 Flash").
Proof.
  intros Himg image_base64 outcome1 outcome2 r1 r2.
  rewrite (analyze_currency_image env file user st Himg). cbv zeta.
  unfold openai_outcome, gemini_outcome, convert_image_to_base64.
  fold image_base64. fold outcome1 outcome2. fold r1 r2.
  destruct (combine_ai_results r1 r2) as [c|e0] eqn:Hc.
  - destruct (insert_error env _) as [msg|] eqn:Hins.
    + do 3 eexists. split; [reflexivity|]. split.
      { cbn [trace after_call uuid_count]. rewrite <- !app_assoc.
        reflexivity. }
      split; [eexists; repeat split|].
      split; [intros resp [=]|].
      split; intros e d _ _ Hok; rewrite Hok in Hins; discriminate.
    + do 3 eexists. split; [reflexivity|]. split.
      { cbn [trace after_call uuid_count]. rewrite <- !app_assoc.
        reflexivity. }
      split; [eexists; repeat split|].
      split; [intros resp [= <-]; repeat split|].
      split; intros e d Ho Hd _; eexists; (split; [reflexivity|]);
        cbn [openai_result gemini_result]; subst r1 r2; rewrite Ho in *;
        cbn [adapter_contract] in *; split; (reflexivity || assumption).
  - do 3 eexists. split; [reflexivity|]. split.
    { cbn [trace after_call uuid_count]. rewrite <- !app_assoc, app_nil_r.
      reflexivity. }
    split; [reflexivity|].
    split; [intros resp [=]|].
    split; intros e d Ho Hd _; exfalso; subst r1 r2; rewrite Ho in *;
      cbn [adapter_contract] in *; rewrite Hd in Hc.
    + rewrite combine_failed_left in Hc. discriminate.
    + rewrite combine_failed_right in Hc. discriminate.
Qed.

Lemma analyze_fan_out_witness :
  ∃ r st' rest,
    analyze_currency (Sample.env (Raised "timeout") (Replied "{}") None)
                     (mkUpload (Some "image/jpeg") (Some "note.jpg")
                               [xff; xd8; xff])
                     Sample.alice Sample.start = (r, st')
    ∧ trace st' =
        trace Sample.start
        ++ [EvEncode [xff; xd8; xff];
            EvSendMessage "openai" "gpt-4o-mini" "openai-currency-uuid-0"
                          "/9j/";
            EvSendMessage "gemini" "gemini-2.0-flash"
                          "gemini-currency-uuid-1" "/9j/"]
        ++ rest
    ∧ ∃ resp, r = Ret resp
              ∧ openai_result resp = Failed "timeout" "OpenAI GPT-4o-mini"
              ∧ gemini_result resp = PyDict ∅.
Proof.
  destruct (analyze_fan_out (Sample.env (Raised "timeout") (Replied "{}") None)
              (mkUpload (Some "image/jpeg") (Some "note.jpg") [xff; xd8; xff])
              Sample.alice Sample.start
              (ex_intro _ "image/jpeg" (conj eq_refl eq_refl)))
    as (r & st' & rest & Hrun & Htrace & _ & _ & Hleft & _).
  exists r, st', rest.
  split; [exact Hrun|]. split; [exact Htrace|].
  apply (Hleft "timeout" ∅); [reflexivity|reflexivity|].
  intros doc. reflexivity.
Defined.

Lemma combine_non_dict_left (v r2 : pyval) :
  (∀ d, v ≠ PyDict d) →
  combine_ai_results v r2 =
    Raise (AttributeError
             ("'" +:+ type_name v +:+ "' object has no attribute 'get'")).
Proof.
  intros Hv. destruct v; try reflexivity. destruct (Hv d). reflexivity.
Qed.

Lemma combine_non_dict_right (d1 : gmap string pyval) (v : pyval) :
  (∀ d, v ≠ PyDict d) →
  combine_ai_results (PyDict d1) v =
    Raise (AttributeError
             ("'" +:+ type_name v +:+ "' object has no attribute 'get'")).
Proof.
  intros Hv. destruct v; try reflexivity. destruct (Hv d). reflexivity.
Qed.

(** C10: when a provider's response parses to a JSON value that is not an
    object, its adapter returns that value as it is, the combiner's [get]
    on it raises [AttributeError], and the handler reports the whole request
    as failed with status 500, nothing being stored, whatever the other
    provider answered. *)
Theorem analyze_non_object_json (env : Env) (file : UploadFile) (user : User)
    (st : State) (v : pyval) :
  is_image file →
  (∀ d, v ≠ PyDict d) →
  parsed env (openai_outcome env file) = Some v
  ∨ (parsed env (gemini_outcome env file) = Some v
     ∧ ∃ d1, adapter_contract env "OpenAI GPT-4o-mini"
                              (openai_outcome env file) = PyDict d1) →
  let image_base64 := convert_image_to_base64 env (file_bytes file) in
  let message :=
    "'" +:+ type_name v +:+ "' object has no attribute 'get'" in
  (∃ r1 r2 st1 st2,
     analyze_with_openai env image_base64 st = (Ret r1, st1)
     ∧ analyze_with_gemini env image_base64 st1 = (Ret r2, st2)
     ∧ (r1 = v ∨ r2 = v)
     ∧ combine_ai_results r1 r2 = Raise (AttributeError message))
  ∧ ∃ st',
      analyze_currency env file user st
        = (Raise (HTTPException 500 message), st')
      ∧ analysis_collection st' = analysis_collection st.
Proof.
  intros Himg Hv Hparsed image_base64 message.
  pose proof (adapter_contract_parsed env "OpenAI GPT-4o-mini"
                (openai_outcome env file)) as H1.
  pose proof (adapter_contract_parsed env "Google Gemini 2.0 Flash"
                (gemini_outcome env file)) as H2.
  assert (Hc : combine_ai_results
                 (adapter_contract env "OpenAI GPT-4o-mini"
                                   (openai_outcome env file))
                 (adapter_contract env "Google Gemini 2.0 Flash"
                                   (gemini_outcome env file))
               = Raise (AttributeError message)
               ∧ (adapter_contract env "OpenAI GPT-4o-mini"
                                   (openai_outcome env file) = v
                  ∨ adapter_contract env "Google Gemini 2.0 Flash"
                                     (gemini_outcome env file) = v)).
  { destruct Hparsed as [Hp|(Hp & d1 & Hd1)].
    - rewrite Hp in H1. rewrite H1. split; [|left; reflexivity].
      apply combine_non_dict_left, Hv.
    - rewrite Hp in H2. rewrite H2, Hd1. split; [|right; reflexivity].
      apply combine_non_dict_right, Hv. }
  destruct Hc as [Hc Hor].
  split.
  - rewrite analyze_with_openai_run. do 4 eexists.
    split; [reflexivity|]. rewrite analyze_with_gemini_run.
    split; [reflexivity|]. split; [exact Hor|exact Hc].
  - rewrite (analyze_currency_image env file user st Himg). cbv zeta.
    rewrite Hc. eexists. split; reflexivity.
Qed.

Lemma analyze_non_object_json_witness :
  ∃ st',
    analyze_currency (Sample.env (Replied "42") (Replied "{}") None)
                     Sample.png Sample.alice Sample.start
      = (Raise (HTTPException 500 "'int' object has no attribute 'get'"), st')
    ∧ analysis_collection st' = analysis_collection Sample.start.
Proof.
  refine (proj2 (analyze_non_object_json
                   (Sample.env (Replied "42") (Replied "{}") None)
                   Sample.png Sample.alice Sample.start (PyInt 42) _ _ _)).
  - exists "image/png". split; reflexivity.
  - intros d. discriminate.
  - left. reflexivity.
Defined.

(** ** Properties of the single-record read *)

Lemma find_absent_id (id user_id : string) (coll : list AnalysisDoc) :
  id ∉ doc_id <$> coll →
  List.find (λ doc, bool_decide (doc_id doc = id)
                    && bool_decide (doc_user_id doc = user_id)) coll = None.
Proof.
  induction coll as [|a coll IH]; intros Hnot; [reflexivity|].
  rewrite fmap_cons, not_elem_of_cons in Hnot. destruct Hnot as [Hne Hnot].
  cbn [List.find]. rewrite bool_decide_eq_false_2 by congruence.
  apply IH, Hnot.
Qed.

Lemma find_unique_id (rec : AnalysisDoc) (user_id : string)
    (coll : list AnalysisDoc) :
  rec ∈ coll → NoDup (doc_id <$> coll) →
  List.find (λ doc, bool_decide (doc_id doc = doc_id rec)
                    && bool_decide (doc_user_id doc = user_id)) coll
    = if bool_decide (doc_user_id rec = user_id) then Some rec else None.
Proof.
  induction coll as [|a coll IH]; intros Hin Hnd.
  - inversion Hin.
  - rewrite fmap_cons, NoDup_cons in Hnd. destruct Hnd as [Hfresh Hnd].
    cbn [List.find]. apply elem_of_cons in Hin as [->|Hin].
    + rewrite bool_decide_eq_true_2 by reflexivity. cbn [andb].
      destruct (bool_decide (doc_user_id a = user_id)); [reflexivity|].
      apply find_absent_id, Hfresh.
    + rewrite bool_decide_eq_false_2.
      * apply IH; assumption.
      * intros Heq. apply Hfresh. rewrite Heq.
        apply list_elem_of_fmap_2, Hin.
Qed.

(** C8: in a collection whose ids are unique, the record written for one
    user is returned (without the driver's [_id]) to that user and to no
    other: the same id asked by another user, or an id that no record has,
    ends in the 404 "Analysis not found"; and whatever the collection, a
    record the read returns has the requested id and belongs to the
    requester. *)
Theorem get_analysis_owner_only (st : State) (rec : AnalysisDoc) :
  rec ∈ analysis_collection st →
  NoDup (doc_id <$> analysis_collection st) →
  (∀ user, username user = doc_user_id rec →
     get_analysis (doc_id rec) user st = (Ret (pop__id rec), st))
  ∧ (∀ user, username user ≠ doc_user_id rec →
       get_analysis (doc_id rec) user st
         = (Raise (HTTPException 404 "Analysis not found"), st))
  ∧ (∀ id user, id ∉ doc_id <$> analysis_collection st →
       get_analysis id user st
         = (Raise (HTTPException 404 "Analysis not found"), st))
  ∧ (∀ id user doc st',
       get_analysis id user st = (Ret doc, st') →
       doc_id doc = id ∧ doc_user_id doc = username user
       ∧ ∃ stored, stored ∈ analysis_collection st ∧ doc = pop__id stored).
Proof.
  intros Hin Hnd.
  unfold get_analysis, find_one, mbind, M_bind, mret, M_ret, raise.
  split; [|split; [|split]].
  - intros user Hu. rewrite (find_unique_id rec _ _ Hin Hnd).
    rewrite bool_decide_eq_true_2 by congruence. reflexivity.
  - intros user Hu. rewrite (find_unique_id rec _ _ Hin Hnd).
    rewrite bool_decide_eq_false_2 by congruence. reflexivity.
  - intros id user Hid. rewrite find_absent_id by assumption. reflexivity.
  - intros id user doc st' Hrun.
    destruct (List.find _ _) as [found|] eqn:Hfind; [|discriminate].
    apply List.find_some in Hfind as [Hfound Htest].
    apply andb_prop in Htest as [Hid Hu].
    apply bool_decide_eq_true_1 in Hid, Hu.
    injection Hrun as <- _. split; [exact Hid|]. split; [exact Hu|].
    exists found. split; [|reflexivity]. apply list_elem_of_In, Hfound.
Qed.

Lemma find_appended (id user_id : string) (coll : list AnalysisDoc)
    (doc : AnalysisDoc) :
  id ∉ doc_id <$> coll → doc_id doc = id → doc_user_id doc = user_id →
  List.find (λ doc, bool_decide (doc_id doc = id)
                    && bool_decide (doc_user_id doc = user_id))
            (coll ++ [doc]) = Some doc.
Proof.
  intros Hnot Hid Hu.
  induction coll as [|a coll IH].
  - cbn [app List.find]. rewrite !bool_decide_eq_true_2 by assumption.
    reflexivity.
  - rewrite fmap_cons, not_elem_of_cons in Hnot. destruct Hnot as [Hne Hnot].
    cbn [app List.find]. rewrite bool_decide_eq_false_2 by congruence.
    apply IH, Hnot.
Qed.

(** X11, round trip: the record a successful analysis writes under a fresh
    id is the one its owner reads back by the returned [analysis_id]. *)
Lemma analyze_then_get (env : Env) (file : UploadFile) (user : User)
    (st st' : State) (resp : AnalyzeResponse) :
  analyze_currency env file user st = (Ret resp, st') →
  analysis_id resp ∉ doc_id <$> analysis_collection st →
  ∃ doc,
    get_analysis (analysis_id resp) user st' = (Ret doc, st')
    ∧ doc_id doc = analysis_id resp
    ∧ doc_user_id doc = username user
    ∧ doc_openai_result doc = openai_result resp
    ∧ doc_gemini_result doc = gemini_result resp
    ∧ doc_combined_analysis doc = combined_analysis resp.
Proof.
  intros Hrun Hfresh.
  destruct (content_type file) as [ct|] eqn:Hct.
  - destruct (String.prefix "image/" ct) eqn:Hprefix.
    + assert (Himg : is_image file) by (exists ct; split; assumption).
      rewrite (analyze_currency_image env file user st Himg) in Hrun.
      cbv zeta in Hrun.
      destruct (combine_ai_results _ _) as [c|e]; [|discriminate].
      destruct (insert_error env _); [discriminate|].
      injection Hrun as <- <-.
      unfold get_analysis, find_one, mbind, M_bind, mret, M_ret.
      cbn [analysis_collection after_call analysis_id] in *.
      rewrite find_appended; [|assumption|reflexivity|reflexivity].
      eexists. split; [reflexivity|]. repeat split.
    + rewrite (analyze_currency_not_image env file user st ct Hct Hprefix)
        in Hrun. discriminate.
  - rewrite (analyze_currency_no_content_type env file user st Hct) in Hrun.
    discriminate.
Qed.

Lemma sample_collection :
  analysis_collection Sample.after_two
    = [Sample.alice_record; Sample.bob_record].
Proof. vm_compute. reflexivity. Qed.

Lemma get_analysis_owner_only_witness :
  get_analysis "uuid-2" Sample.alice Sample.after_two
    = (Ret (pop__id Sample.alice_record), Sample.after_two)
  ∧ get_analysis "uuid-2" Sample.bob Sample.after_two
      = (Raise (HTTPException 404 "Analysis not found"), Sample.after_two)
  ∧ get_analysis "uuid-9" Sample.alice Sample.after_two
      = (Raise (HTTPException 404 "Analysis not found"), Sample.after_two).
Proof.
  assert (Hin : Sample.alice_record ∈ analysis_collection Sample.after_two).
  { rewrite sample_collection. apply list_elem_of_here. }
  assert (Hnd : NoDup (doc_id <$> analysis_collection Sample.after_two)).
  { rewrite sample_collection. compute_done. }
  destruct (get_analysis_owner_only Sample.after_two Sample.alice_record
              Hin Hnd) as (Howner & Hother & Habsent & _).
  split; [|split].
  - apply (Howner Sample.alice). reflexivity.
  - apply (Hother Sample.bob). discriminate.
  - apply (Habsent "uuid-9" Sample.alice).
    rewrite sample_collection. compute_done.
Defined.

(** ** Further properties of the combiner *)

Lemma combine_dicts (d1 d2 : gmap string pyval) :
  combine_ai_results (PyDict d1) (PyDict d2) =
    let combined :=
      mkCombined "dual_ai_analysis" (PyDict d1) (PyDict d2) ∅ [] in
    let x := default (PyList []) (d1 !! "currencies_detected") in
    let y := default (PyList []) (d2 !! "currencies_detected") in
    if truthy x && truthy y then
      match py_len x, py_len y with
      | Ret n, Ret m =>
          if (n =? m)%nat then
            Ret (consensus_setitem "currency_count_match" (PyBool true)
                                   combined)
          else
            Ret (discrepancies_append
                   "Different number of currencies detected" combined)
      | Raise e, _ => Raise e
      | Ret _, Raise e => Raise e
      end
    else Ret combined.
Proof.
  unfold combine_ai_results. cbn [py_get mbind res_bind]. cbv zeta.
  destruct (truthy _ && truthy _); [|reflexivity].
  destruct (py_len (default _ (d1 !! _))); [|reflexivity].
  destruct (py_len (default _ (d2 !! _))); reflexivity.
Qed.

Lemma combine_returns_dicts (r1 r2 : pyval) (c : CombinedAnalysis) :
  combine_ai_results r1 r2 = Ret c →
  ∃ d1 d2, r1 = PyDict d1 ∧ r2 = PyDict d2.
Proof.
  intros Hc. destruct r1; try discriminate Hc.
  destruct r2; try discriminate Hc. eauto.
Qed.

(** X1: whenever the combiner returns, its output carries the two results
    it was given unchanged under the tag "dual_ai_analysis", and is in one
    of three shapes: nothing recorded; the single consensus entry
    [currency_count_match = True] and no discrepancy; or the single
    discrepancy "Different number of currencies detected" and no consensus
    entry. *)
Theorem combine_output_shapes (r1 r2 : pyval) (c : CombinedAnalysis) :
  combine_ai_results r1 r2 = Ret c →
  comparison c = "dual_ai_analysis"
  ∧ openai_summary c = r1 ∧ gemini_summary c = r2
  ∧ ((consensus c = ∅ ∧ discrepancies c = [])
     ∨ (consensus c = {[ "currency_count_match" := PyBool true ]}
        ∧ discrepancies c = [])
     ∨ (consensus c = ∅
        ∧ discrepancies c = ["Different number of currencies detected"])).
Proof.
  intros Hc.
  destruct (combine_returns_dicts _ _ _ Hc) as (d1 & d2 & -> & ->).
  rewrite combine_dicts in Hc. cbv zeta in Hc.
  destruct (truthy _ && truthy _).
  - destruct (py_len _) as [n|]; [|discriminate].
    destruct (py_len _) as [m|]; [|discriminate].
    destruct (n =? m)%nat; injection Hc as <-; repeat split.
    + right. left. split; [|reflexivity]. apply insert_empty.
    + right. right. split; reflexivity.
  - injection Hc as <-. repeat split. left. split; reflexivity.
Qed.

Lemma combine_output_shapes_witness :
  ∃ c, combine_ai_results (Sample.detected [Sample.usd20])
                          (Sample.detected [Sample.eur5; Sample.usd20])
         = Ret c
       ∧ openai_summary c = Sample.detected [Sample.usd20]
       ∧ gemini_summary c = Sample.detected [Sample.eur5; Sample.usd20].
Proof.
  eexists. split; [reflexivity|].
  destruct (combine_output_shapes
              (Sample.detected [Sample.usd20])
              (Sample.detected [Sample.eur5; Sample.usd20])
              _ eq_refl) as (_ & Ho & Hg & _).
  split; [exact Ho|exact Hg].
Defined.

(** X2: the comparison does not depend on which provider comes first: if
    the combiner returns on two results, it returns on the swapped pair
    with the same consensus and the same discrepancies. *)
Theorem combine_symmetric (r1 r2 : pyval) (c : CombinedAnalysis) :
  combine_ai_results r1 r2 = Ret c →
  ∃ c', combine_ai_results r2 r1 = Ret c'
        ∧ consensus c' = consensus c
        ∧ discrepancies c' = discrepancies c
        ∧ openai_summary c' = gemini_summary c
        ∧ gemini_summary c' = openai_summary c.
Proof.
  intros Hc.
  destruct (combine_returns_dicts _ _ _ Hc) as (d1 & d2 & -> & ->).
  rewrite combine_dicts in Hc. rewrite combine_dicts. cbv zeta in *.
  rewrite (andb_comm (truthy (default _ (d2 !! _)))).
  destruct (truthy _ && truthy _).
  - destruct (py_len (default _ (d1 !! _))) as [n|]; [|discriminate].
    destruct (py_len (default _ (d2 !! _))) as [m|]; [|discriminate].
    rewrite (Nat.eqb_sym m n).
    destruct (n =? m)%nat; injection Hc as <-; eexists;
      (split; [reflexivity|]); repeat split.
  - injection Hc as <-. eexists. split; [reflexivity|]. repeat split.
Qed.

Lemma combine_symmetric_witness :
  ∃ c', combine_ai_results (Sample.detected [Sample.eur5; Sample.usd20])
                           (Sample.detected [Sample.usd20]) = Ret c'
        ∧ discrepancies c' = ["Different number of currencies detected"].
Proof.
  destruct (combine_symmetric
              (Sample.detected [Sample.usd20])
              (Sample.detected [Sample.eur5; Sample.usd20])
              _ eq_refl) as (c' & Hc' & _ & Hd & _).
  exists c'. split; [exact Hc'|exact Hd].
Defined.

(** X3: the combiner returns exactly when both results are dicts and, in
    case both [currencies_detected] values are truthy, both have a length;
    otherwise it raises [AttributeError] (a result that is not a dict) or
    [TypeError] (a truthy value without length), and nothing else. *)
Theorem combine_returns_iff (r1 r2 : pyval) :
  ((∃ c, combine_ai_results r1 r2 = Ret c) ↔
   ∃ d1 d2,
     r1 = PyDict d1 ∧ r2 = PyDict d2
     ∧ let x := default (PyList []) (d1 !! "currencies_detected") in
       let y := default (PyList []) (d2 !! "currencies_detected") in
       truthy x && truthy y = true →
       (∃ n, py_len x = Ret n) ∧ (∃ m, py_len y = Ret m))
  ∧ ∀ e, combine_ai_results r1 r2 = Raise e →
         (∃ msg, e = AttributeError msg) ∨ (∃ msg, e = TypeError msg).
Proof.
  split; [split|].
  - intros [c Hc].
    destruct (combine_returns_dicts _ _ _ Hc) as (d1 & d2 & -> & ->).
    exists d1, d2. split; [reflexivity|]. split; [reflexivity|].
    cbv zeta. intros Ht. rewrite combine_dicts in Hc. cbv zeta in Hc.
    rewrite Ht in Hc.
    destruct (py_len (default _ (d1 !! _))) as [n|]; [|discriminate].
    destruct (py_len (default _ (d2 !! _))) as [m|]; [|discriminate].
    eauto.
  - intros (d1 & d2 & -> & -> & Hsized). cbv zeta in Hsized.
    rewrite combine_dicts. cbv zeta.
    destruct (truthy _ && truthy _); [|eauto].
    destruct (Hsized eq_refl) as [[n ->] [m ->]].
    destruct (n =? m)%nat; eauto.
  - intros e He.
    destruct r1; try (left; injection He as <-; eauto; fail).
    destruct r2; try (left; injection He as <-; eauto; fail).
    rewrite combine_dicts in He. cbv zeta in He.
    destruct (truthy _ && truthy _); [|discriminate].
    destruct (default _ (d !! _)) as [| | | | | |] eqn:Hx;
      cbn [py_len] in He;
      try (right; injection He as <-; eauto; fail);
      destruct (default _ (d0 !! _)) as [| | | | | |] eqn:Hy;
      cbn [py_len] in He;
      try (right; injection He as <-; eauto; fail);
      destruct (_ =? _)%nat; discriminate.
Qed.

Lemma combine_returns_iff_witness :
  (∃ c, combine_ai_results
          (PyDict {[ "currencies_detected" := PyStr "USD" ]})
          (Sample.detected [Sample.usd20]) = Ret c)
  ∧ combine_ai_results (PyDict {[ "currencies_detected" := PyInt 3 ]})
                       (Sample.detected [Sample.usd20])
      = Raise (TypeError "object of type 'int' has no len()").
Proof.
  split.
  - apply (proj1 (combine_returns_iff
                    (PyDict {[ "currencies_detected" := PyStr "USD" ]})
                    (Sample.detected [Sample.usd20]))).
    do 2 eexists. split; [reflexivity|]. split; [reflexivity|].
    cbv zeta. intros _. split; eexists; reflexivity.
  - reflexivity.
Defined.

(** X4: when the [currencies_detected] of either dict is missing or falsy
    (an empty list, [None], zero, an empty string), nothing is compared and
    nothing raises, whatever the other dict holds. *)
Theorem combine_skips_when_either_falsy (d1 d2 : gmap string pyval) :
  truthy (default (PyList []) (d1 !! "currencies_detected")) = false
  ∨ truthy (default (PyList []) (d2 !! "currencies_detected")) = false →
  combine_ai_results (PyDict d1) (PyDict d2)
    = Ret (mkCombined "dual_ai_analysis" (PyDict d1) (PyDict d2) ∅ []).
Proof.
  intros Hfalsy. rewrite combine_dicts. cbv zeta.
  destruct Hfalsy as [-> | ->]; [reflexivity|].
  rewrite andb_false_r. reflexivity.
Qed.

Lemma combine_skips_when_either_falsy_witness :
  combine_ai_results
    (PyDict {[ "currencies_detected" := PyInt 7 ]})
    (PyDict {[ "notes" := PyStr "nothing found" ]})
  = Ret (mkCombined "dual_ai_analysis"
           (PyDict {[ "currencies_detected" := PyInt 7 ]})
           (PyDict {[ "notes" := PyStr "nothing found" ]}) ∅ []).
Proof.
  apply (combine_skips_when_either_falsy
           {[ "currencies_detected" := PyInt 7 ]}
           {[ "notes" := PyStr "nothing found" ]}).
  right. reflexivity.
Defined.

Lemma sized_nonempty_truthy (x : pyval) (n : nat) :
  py_len x = Ret n → (0 < n)%nat → truthy x = true.
Proof.
  intros Hx Hn.
  destruct x; try discriminate Hx; injection Hx as <-; cbn [truthy].
  - destruct s; [cbn in Hn; lia|reflexivity].
  - destruct l; [cbn in Hn; lia|reflexivity].
  - destruct (size d =? 0)%nat eqn:E; [|reflexivity].
    apply Nat.eqb_eq in E. lia.
Qed.

(** X5: the comparison looks at lengths only: whatever two non-empty values
    with a length the dicts hold (lists by their items, strings by their
    code points, dicts by their keys), equal lengths are recorded as
    [currency_count_match = True] and unequal ones as the one
    discrepancy. *)
Theorem combine_compares_lengths_only (d1 d2 : gmap string pyval)
    (x y : pyval) (n m : nat) :
  d1 !! "currencies_detected" = Some x →
  d2 !! "currencies_detected" = Some y →
  py_len x = Ret n → py_len y = Ret m →
  (0 < n)%nat → (0 < m)%nat →
  combine_ai_results (PyDict d1) (PyDict d2) =
    Ret (if (n =? m)%nat
         then mkCombined "dual_ai_analysis" (PyDict d1) (PyDict d2)
                {[ "currency_count_match" := PyBool true ]} []
         else mkCombined "dual_ai_analysis" (PyDict d1) (PyDict d2) ∅
                ["Different number of currencies detected"]).
Proof.
  intros H1 H2 Hx Hy Hn Hm. rewrite combine_dicts. cbv zeta.
  rewrite H1, H2. cbn [from_option id]. rewrite Hx, Hy.
  rewrite (sized_nonempty_truthy x n Hx Hn).
  rewrite (sized_nonempty_truthy y m Hy Hm). cbn [andb].
  destruct (n =? m)%nat; [|reflexivity].
  unfold consensus_setitem. cbn. rewrite insert_empty. reflexivity.
Qed.

Lemma combine_compares_lengths_only_witness :
  ∃ c, combine_ai_results
         (PyDict {[ "currencies_detected" := PyStr "€€" ]})
         (Sample.detected [Sample.usd20; Sample.eur5]) = Ret c
       ∧ consensus c = {[ "currency_count_match" := PyBool true ]}.
Proof.
  eexists. split.
  - apply (combine_compares_lengths_only
             {[ "currencies_detected" := PyStr "€€" ]}
             {[ "currencies_detected" :=
                  PyList [Sample.usd20; Sample.eur5] ]}
             (PyStr "€€") (PyList [Sample.usd20; Sample.eur5]) 2 2);
      (reflexivity || (simpl; lia)).
  - reflexivity.
Defined.

(** ** Further properties of the request handler *)

Lemma analyze_currency_upload_cases (env : Env) (file : UploadFile)
    (user : User) (st : State) :
  is_image file
  ∨ (¬ is_image file
     ∧ ∃ detail,
         analyze_currency env file user st
           = (Raise (HTTPException 500 detail), st)
         ∧ (detail = str_HTTPException env 400 "File must be an image"
            ∨ detail = "'NoneType' object has no attribute 'startswith'")).
Proof.
  destruct (content_type file) as [ct|] eqn:Hct.
  - destruct (String.prefix "image/" ct) eqn:Hprefix.
    + left. exists ct. split; assumption.
    + right. split.
      * intros (ct' & Hct' & Hp'). congruence.
      * eexists. split; [|left; reflexivity].
        apply (analyze_currency_not_image env file user st ct Hct Hprefix).
  - right. split.
    + intros (ct' & Hct' & _). congruence.
    + eexists. split; [|right; reflexivity].
      apply (analyze_currency_no_content_type env file user st Hct).
Qed.

Lemma find_snoc {A : Type} (f : A → bool) (l : list A) (x : A) :
  List.find f (l ++ [x]) =
    match List.find f l with
    | Some y => Some y
    | None => if f x then Some x else None
    end.
Proof.
  induction l as [|a l IH]; cbn [app List.find].
  - destruct (f x); reflexivity.
  - destruct (f a); [reflexivity|exact IH].
Qed.

Lemma analyze_currency_outcomes (env : Env) (file : UploadFile)
    (user : User) (st : State) :
  (∃ detail st',
     analyze_currency env file user st
       = (Raise (HTTPException 500 detail), st')
     ∧ analysis_collection st' = analysis_collection st)
  ∨ (is_image file
     ∧ ∃ resp st',
         analyze_currency env file user st = (Ret resp, st')
         ∧ analysis_collection st' =
             analysis_collection st
             ++ [mkDoc
                   (Some (object_id env (length (analysis_collection st))))
                   (analysis_id resp) (username user)
                   (openai_result resp) (gemini_result resp)
                   (combined_analysis resp)
                   (bson_datetime (timestamp resp)) (filename file)]
         ∧ analysis_id resp = uuid4_str env (2 + uuid_count st)
         ∧ timestamp resp = utcnow env
         ∧ uuid_count st' = (3 + uuid_count st)%nat).
Proof.
  destruct (analyze_currency_upload_cases env file user st)
    as [Himg|[_ (detail & Hrun & _)]].
  - rewrite (analyze_currency_image env file user st Himg). cbv zeta.
    destruct (combine_ai_results _ _) as [c|e0].
    + destruct (insert_error env _) as [msg|].
      * left. do 2 eexists. split; reflexivity.
      * right. split; [exact Himg|]. do 2 eexists.
        split; [reflexivity|]. repeat split.
    + left. do 2 eexists. split; reflexivity.
  - left. do 2 eexists. split; [exact Hrun|reflexivity].
Qed.

(** X6: an upload that does not declare a content type starting with
    [image/] (another type, or none at all) is turned away before anything
    happens: no provider is called, no uuid is drawn, nothing is stored, and
    the answer is an [HTTPException] with status 500. *)
Theorem analyze_invalid_upload_touches_nothing (env : Env)
    (file : UploadFile) (user : User) (st : State) :
  ¬ is_image file →
  ∃ detail,
    analyze_currency env file user st
      = (Raise (HTTPException 500 detail), st)
    ∧ (detail = str_HTTPException env 400 "File must be an image"
       ∨ detail = "'NoneType' object has no attribute 'startswith'").
Proof.
  intros Hnot.
  destruct (analyze_currency_upload_cases env file user st)
    as [Himg|[_ Hrun]]; [contradiction|exact Hrun].
Qed.

Lemma analyze_invalid_upload_touches_nothing_witness :
  ∃ detail,
    analyze_currency (Sample.env (Replied "{}") (Replied "{}") None)
      (mkUpload None (Some "scan.png") Sample.png_bytes)
      Sample.alice Sample.start
      = (Raise (HTTPException 500 detail), Sample.start).
Proof.
  destruct (analyze_invalid_upload_touches_nothing
              (Sample.env (Replied "{}") (Replied "{}") None)
              (mkUpload None (Some "scan.png") Sample.png_bytes)
              Sample.alice Sample.start) as (detail & Hrun & _).
  - intros (ct & Hct & _). discriminate Hct.
  - exists detail. exact Hrun.
Defined.

(** X7: however a request fails, the handler reports it as an
    [HTTPException] with status 500 and the collection is left as it
    was. *)
Theorem analyze_failure_is_500 (env : Env) (file : UploadFile) (user : User)
    (st st' : State) (e : exn) :
  analyze_currency env file user st = (Raise e, st') →
  (∃ detail, e = HTTPException 500 detail)
  ∧ analysis_collection st' = analysis_collection st.
Proof.
  intros Hrun.
  destruct (analyze_currency_outcomes env file user st)
    as [(detail & st0 & Hrun' & Hcoll)|(_ & resp & st0 & Hrun' & _)];
    rewrite Hrun' in Hrun; [|discriminate].
  injection Hrun as <- <-. split; [eauto|exact Hcoll].
Qed.

Lemma analyze_failure_is_500_witness :
  ∃ detail st',
    analyze_currency (Sample.env (Replied "[]") (Replied "{}") None)
                     Sample.png Sample.alice Sample.start
      = (Raise (HTTPException 500 detail), st')
    ∧ analysis_collection st' = [].
Proof.
  assert (Hrun : ∃ e st',
             analyze_currency (Sample.env (Replied "[]") (Replied "{}") None)
                              Sample.png Sample.alice Sample.start
               = (Raise e, st')).
  { do 2 eexists. rewrite analyze_currency_image.
    - reflexivity.
    - exists "image/png". split; reflexivity. }
  destruct Hrun as (e & st' & Hrun).
  destruct (analyze_failure_is_500 _ _ _ _ _ _ Hrun) as [[detail ->] Hcoll].
  exists detail, st'. split; [exact Hrun|exact Hcoll].
Defined.

(** X8: a request that succeeds adds exactly one record, at the end of the
    collection and leaving the earlier ones untouched: the record holds the
    id, the two provider results and the combined analysis that the
    response returns, the requester as owner and the upload's filename; its
    timestamp is the response's cut to the millisecond, so it is never
    later than the response's and less than a millisecond earlier.  The id
    is the third uuid drawn by the request, after the two session ids. *)
Theorem analyze_success_appends_one (env : Env) (file : UploadFile)
    (user : User) (st st' : State) (resp : AnalyzeResponse) :
  analyze_currency env file user st = (Ret resp, st') →
  is_image file
  ∧ analysis_collection st' =
      analysis_collection st
      ++ [mkDoc (Some (object_id env (length (analysis_collection st))))
                (analysis_id resp) (username user)
                (openai_result resp) (gemini_result resp)
                (combined_analysis resp)
                (bson_datetime (timestamp resp)) (filename file)]
  ∧ timestamp resp - 1000 < bson_datetime (timestamp resp) ≤ timestamp resp
  ∧ analysis_id resp = uuid4_str env (2 + uuid_count st)
  ∧ timestamp resp = utcnow env
  ∧ uuid_count st' = (3 + uuid_count st)%nat.
Proof.
  intros Hrun.
  destruct (analyze_currency_outcomes env file user st)
    as [(detail & st0 & Hrun' & _)
       |(Himg & resp0 & st0 & Hrun' & Hcoll & Hinv)];
    rewrite Hrun' in Hrun; [discriminate|].
  injection Hrun as <- <-. split; [exact Himg|]. split; [exact Hcoll|].
  split; [|exact Hinv].
  unfold bson_datetime.
  pose proof (Z.mod_pos_bound (timestamp resp0) 1000 ltac:(lia)).
  pose proof (Z.div_mod (timestamp resp0) 1000 ltac:(lia)). lia.
Qed.

Lemma analyze_success_appends_one_witness :
  ∃ resp st' stored,
    analyze_currency SampleAuth.env_456 Sample.png Sample.alice Sample.start
      = (Ret resp, st')
    ∧ analysis_collection st' = [stored]
    ∧ analysis_id resp = "uuid-2"
    ∧ timestamp resp = 1762200000123456
    ∧ doc_timestamp stored = 1762200000123000.
Proof.
  assert (Hrun : ∃ resp st',
             analyze_currency SampleAuth.env_456 Sample.png Sample.alice
                              Sample.start = (Ret resp, st')).
  { do 2 eexists. rewrite analyze_currency_image.
    - reflexivity.
    - exists "image/png". split; reflexivity. }
  destruct Hrun as (resp & st' & Hrun).
  destruct (analyze_success_appends_one _ _ _ _ _ _ Hrun)
    as (_ & Hcoll & _ & Hid & Htime & _).
  exists resp, st'. eexists. split; [exact Hrun|].
  split; [exact Hcoll|]. split; [|split].
  - rewrite Hid. vm_compute. reflexivity.
  - exact Htime.
  - cbn [doc_timestamp]. rewrite Htime. reflexivity.
Defined.

(** X9: if the ids in the collection are pairwise distinct and the uuid the
    request would draw for its record is not among them, they are still
    pairwise distinct after the request, whether it succeeded or failed. *)
Theorem analyze_keeps_ids_unique (env : Env) (file : UploadFile)
    (user : User) (st st' : State) (r : res AnalyzeResponse) :
  NoDup (doc_id <$> analysis_collection st) →
  uuid4_str env (2 + uuid_count st) ∉ doc_id <$> analysis_collection st →
  analyze_currency env file user st = (r, st') →
  NoDup (doc_id <$> analysis_collection st').
Proof.
  intros Hnd Hfresh Hrun.
  destruct (analyze_currency_outcomes env file user st)
    as [(detail & st0 & Hrun' & Hcoll)
       |(_ & resp & st0 & Hrun' & Hcoll & Hid & _)];
    rewrite Hrun' in Hrun; injection Hrun as _ <-; rewrite Hcoll.
  - exact Hnd.
  - rewrite fmap_app. apply NoDup_app. split; [exact Hnd|].
    split; [|apply NoDup_singleton].
    intros id Hin Hnew. cbn in Hnew. apply list_elem_of_singleton in Hnew.
    subst id. rewrite Hid in Hin. exact (Hfresh Hin).
Qed.

Lemma analyze_keeps_ids_unique_witness :
  NoDup (doc_id <$> analysis_collection
                      (snd (analyze_currency Sample.env_two Sample.png
                              Sample.alice Sample.after_two))).
Proof.
  apply (analyze_keeps_ids_unique Sample.env_two Sample.png Sample.alice
           Sample.after_two _
           (fst (analyze_currency Sample.env_two Sample.png Sample.alice
                                  Sample.after_two))).
  - rewrite sample_collection. compute_done.
  - rewrite sample_collection. compute_done.
  - apply surjective_pairing.
Defined.

Lemma get_analysis_reads_collection (analysis_id : string) (user : User)
    (st : State) :
  get_analysis analysis_id user st =
    (match List.find (λ doc, bool_decide (doc_id doc = analysis_id)
                             && bool_decide (doc_user_id doc = username user))
                     (analysis_collection st) with
     | Some doc => Ret (pop__id doc)
     | None => Raise (HTTPException 404 "Analysis not found")
     end, st).
Proof.
  unfold get_analysis, find_one, mbind, M_bind, mret, M_ret, raise.
  destruct (List.find _ _); reflexivity.
Qed.

(** X10: a request changes nothing about the records already there: a read
    of any id other than the one the request draws for its own record gives
    the same answer after the request as before, for every requester. *)
Theorem analyze_leaves_other_records_readable (env : Env)
    (file : UploadFile) (user : User) (st st' : State)
    (r : res AnalyzeResponse) (id : string) (reader : User) :
  analyze_currency env file user st = (r, st') →
  id ≠ uuid4_str env (2 + uuid_count st) →
  fst (get_analysis id reader st') = fst (get_analysis id reader st).
Proof.
  intros Hrun Hid. rewrite !get_analysis_reads_collection. cbn [fst].
  destruct (analyze_currency_outcomes env file user st)
    as [(detail & st0 & Hrun' & Hcoll)
       |(_ & resp & st0 & Hrun' & Hcoll & Hnew & _)];
    rewrite Hrun' in Hrun; injection Hrun as _ <-; rewrite Hcoll.
  - reflexivity.
  - rewrite find_snoc. destruct (List.find _ (analysis_collection st));
      [reflexivity|].
    cbn [doc_id]. rewrite Hnew.
    rewrite bool_decide_eq_false_2 by congruence. reflexivity.
Qed.

Lemma analyze_leaves_other_records_readable_witness :
  fst (get_analysis "uuid-2" Sample.alice
         (snd (analyze_currency Sample.env_two Sample.png Sample.bob
                                Sample.after_two)))
    = Ret (pop__id Sample.alice_record).
Proof.
  rewrite (analyze_leaves_other_records_readable Sample.env_two Sample.png
             Sample.bob Sample.after_two _
             (fst (analyze_currency Sample.env_two Sample.png Sample.bob
                                    Sample.after_two))
             "uuid-2" Sample.alice).
  - rewrite get_analysis_reads_collection, sample_collection. reflexivity.
  - apply surjective_pairing.
  - apply (bool_decide_unpack _). vm_compute. exact I.
Defined.

Lemma analyze_then_get_witness :
  ∃ resp st' doc,
    analyze_currency Sample.env_two Sample.png Sample.alice Sample.start
      = (Ret resp, st')
    ∧ get_analysis (analysis_id resp) Sample.alice st' = (Ret doc, st')
    ∧ doc_user_id doc = "alice"
    ∧ doc_combined_analysis doc = combined_analysis resp.
Proof.
  assert (Hrun : ∃ resp st',
             analyze_currency Sample.env_two Sample.png Sample.alice
                              Sample.start = (Ret resp, st')).
  { do 2 eexists. rewrite analyze_currency_image.
    - reflexivity.
    - exists "image/png". split; reflexivity. }
  destruct Hrun as (resp & st' & Hrun).
  destruct (analyze_then_get _ _ _ _ _ _ Hrun)
    as (doc & Hget & _ & Huser & _ & _ & Hcombined).
  - apply not_elem_of_nil.
  - exists resp, st', doc. repeat split; assumption.
Defined.

(** X12: the record a successful request writes under a fresh id cannot be
    read by anyone but the requester: every other user asking for the
    returned [analysis_id] gets the 404. *)
Theorem analyze_then_other_user_404 (env : Env) (file : UploadFile)
    (user other : User) (st st' : State) (resp : AnalyzeResponse) :
  analyze_currency env file user st = (Ret resp, st') →
  analysis_id resp ∉ doc_id <$> analysis_collection st →
  username other ≠ username user →
  get_analysis (analysis_id resp) other st'
    = (Raise (HTTPException 404 "Analysis not found"), st').
Proof.
  intros Hrun Hfresh Hother. rewrite get_analysis_reads_collection.
  destruct (analyze_currency_outcomes env file user st)
    as [(detail & st0 & Hrun' & _)|(_ & resp0 & st0 & Hrun' & Hcoll & _)];
    rewrite Hrun' in Hrun; [discriminate|].
  injection Hrun as <- <-. rewrite Hcoll, find_snoc.
  rewrite find_absent_id by exact Hfresh.
  cbn [doc_id doc_user_id].
  rewrite (bool_decide_eq_false_2 (username user = username other))
    by congruence.
  rewrite andb_false_r. reflexivity.
Qed.

Lemma analyze_then_other_user_404_witness :
  ∃ resp st',
    analyze_currency Sample.env_two Sample.png Sample.alice Sample.start
      = (Ret resp, st')
    ∧ get_analysis (analysis_id resp) Sample.bob st'
        = (Raise (HTTPException 404 "Analysis not found"), st').
Proof.
  assert (Hrun : ∃ resp st',
             analyze_currency Sample.env_two Sample.png Sample.alice
                              Sample.start = (Ret resp, st')).
  { do 2 eexists. rewrite analyze_currency_image.
    - reflexivity.
    - exists "image/png". split; reflexivity. }
  destruct Hrun as (resp & st' & Hrun).
  exists resp, st'. split; [exact Hrun|].
  apply (analyze_then_other_user_404 _ _ _ _ _ _ _ Hrun).
  - apply not_elem_of_nil.
  - discriminate.
Defined.

Lemma adapter_contract_unparsed (env : Env) (provider : string)
    (outcome : call_outcome) :
  parsed env outcome = None →
  ∃ d, adapter_contract env provider outcome = PyDict d
       ∧ d !! "currencies_detected" = None.
Proof.
  intros Hp. destruct outcome as [response|error]; simpl in *.
  - rewrite Hp. eexists. split; reflexivity.
  - eexists. split; reflexivity.
Qed.

(** X13: when a provider's call raised or its response did not parse, the
    two results are not compared at all: provided the other provider's
    result is a dict and the store write succeeds, the request succeeds
    with empty consensus and empty discrepancies, whatever the other
    provider detected. *)
Theorem analyze_unparsed_no_comparison (env : Env) (file : UploadFile)
    (user : User) (st : State) :
  is_image file →
  (∀ doc, insert_error env doc = None) →
  (parsed env (openai_outcome env file) = None
   ∧ ∃ d2, adapter_contract env "Google Gemini 2.0 Flash"
                            (gemini_outcome env file) = PyDict d2)
  ∨ (parsed env (gemini_outcome env file) = None
     ∧ ∃ d1, adapter_contract env "OpenAI GPT-4o-mini"
                              (openai_outcome env file) = PyDict d1) →
  ∃ resp st',
    analyze_currency env file user st = (Ret resp, st')
    ∧ consensus (combined_analysis resp) = ∅
    ∧ discrepancies (combined_analysis resp) = [].
Proof.
  intros Himg Hins Hside.
  rewrite (analyze_currency_image env file user st Himg). cbv zeta.
  assert (Hc : ∃ d1 d2,
             combine_ai_results
               (adapter_contract env "OpenAI GPT-4o-mini"
                                 (openai_outcome env file))
               (adapter_contract env "Google Gemini 2.0 Flash"
                                 (gemini_outcome env file))
             = Ret (mkCombined "dual_ai_analysis" (PyDict d1) (PyDict d2)
                               ∅ [])).
  { destruct Hside as [(Hp & d2 & ->)|(Hp & d1 & ->)].
    - destruct (adapter_contract_unparsed env "OpenAI GPT-4o-mini" _ Hp)
        as (d & -> & Hnone).
      exists d, d2. rewrite combine_dicts. cbv zeta. rewrite Hnone.
      reflexivity.
    - destruct (adapter_contract_unparsed env "Google Gemini 2.0 Flash" _ Hp)
        as (d & -> & Hnone).
      exists d1, d. rewrite combine_dicts. cbv zeta.
      rewrite Hnone. cbn [from_option id truthy length Nat.eqb negb].
      rewrite andb_false_r. reflexivity. }
  destruct Hc as (d1 & d2 & ->). rewrite Hins.
  do 2 eexists. split; [reflexivity|]. split; reflexivity.
Qed.

Lemma analyze_unparsed_no_comparison_witness :
  ∃ resp st',
    analyze_currency (Sample.env (Replied "I see no currency")
                                 (Replied "{}") None)
                     Sample.png Sample.alice Sample.start = (Ret resp, st')
    ∧ consensus (combined_analysis resp) = ∅
    ∧ discrepancies (combined_analysis resp) = [].
Proof.
  apply (analyze_unparsed_no_comparison
           (Sample.env (Replied "I see no currency") (Replied "{}") None)
           Sample.png Sample.alice Sample.start).
  - exists "image/png". split; reflexivity.
  - intros doc. reflexivity.
  - left. split; [reflexivity|]. exists ∅. reflexivity.
Defined.

(** ** Properties of the listing and of the webhook *)

Lemma newer_or_same_trans : Transitive newer_or_same.
Proof. unfold newer_or_same. intros a b c Hab Hbc. lia. Qed.

Lemma newer_or_same_total : Total newer_or_same.
Proof.
  unfold newer_or_same. intros a b.
  destruct (Z_le_dec (doc_timestamp b) (doc_timestamp a)); [left|right]; lia.
Qed.

Lemma merge_sort_newest_first : sorts_newest_first SampleAuth.sort_desc.
Proof.
  intros l. split.
  - apply merge_sort_Permutation.
  - apply (@Sorted_merge_sort _ newer_or_same _ newer_or_same_total).
Qed.

Lemma sorted_lookup_newer (l : list AnalysisDoc) (i j : nat)
    (a b : AnalysisDoc) :
  StronglySorted newer_or_same l → (i ≤ j)%nat →
  l !! i = Some a → l !! j = Some b →
  doc_timestamp b ≤ doc_timestamp a.
Proof.
  intros Hs. revert i j.
  induction Hs as [|x l Hs IH Hall]; intros i j Hij Hi Hj.
  - discriminate Hi.
  - destruct i as [|i'].
    + injection Hi as <-. destruct j as [|j'].
      * injection Hj as <-. lia.
      * cbn in Hj. rewrite Forall_lookup in Hall. exact (Hall j' b Hj).
    + destruct j as [|j']; [lia|]. cbn in Hi, Hj.
      apply (IH i' j'); [lia|assumption|assumption].
Qed.

Lemma listed_from_sorted
    (sort_desc : list AnalysisDoc → list AnalysisDoc) (user : User)
    (st : State) (doc : AnalysisDoc) :
  doc ∈ pop__id <$> take 10 (sort_desc
          (filter (λ d, doc_user_id d = username user)
                  (analysis_collection st))) →
  ∃ stored,
    doc = pop__id stored
    ∧ stored ∈ take 10 (sort_desc
                 (filter (λ d, doc_user_id d = username user)
                         (analysis_collection st))).
Proof. intros Hin. apply list_elem_of_fmap_1 in Hin. exact Hin. Qed.

(** X14: the listing shows a user only records of their own, each one a
    record of the collection without the driver's [_id], and it leaves the
    state as it was. *)
Theorem get_user_analyses_own_only
    (sort_desc : list AnalysisDoc → list AnalysisDoc) (user : User)
    (st : State) :
  sorts_newest_first sort_desc →
  ∃ analyses,
    get_user_analyses sort_desc user st = (Ret analyses, st)
    ∧ ∀ doc, doc ∈ analyses →
        doc_user_id doc = username user
        ∧ doc__id doc = None
        ∧ ∃ stored, stored ∈ analysis_collection st ∧ doc = pop__id stored.
Proof.
  intros Hsort. eexists. split; [reflexivity|].
  intros doc Hin.
  destruct (listed_from_sorted _ _ _ _ Hin) as (stored & -> & Hstored).
  apply subseteq_take in Hstored.
  rewrite (proj1 (Hsort _)) in Hstored.
  apply list_elem_of_filter in Hstored as [Howner Hstored].
  split; [exact Howner|]. split; [reflexivity|].
  exists stored. split; [exact Hstored|reflexivity].
Qed.

Lemma get_user_analyses_own_only_witness :
  ∃ analyses,
    get_user_analyses SampleAuth.sort_desc Sample.alice SampleAuth.history
      = (Ret analyses, SampleAuth.history)
    ∧ ∀ doc, doc ∈ analyses → doc_user_id doc = "alice".
Proof.
  destruct (get_user_analyses_own_only SampleAuth.sort_desc Sample.alice
              SampleAuth.history merge_sort_newest_first)
    as (analyses & Hrun & Hown).
  exists analyses. split; [exact Hrun|].
  intros doc Hin. exact (proj1 (Hown doc Hin)).
Defined.

(** X15: the listing never has more than ten records, and they come newest
    first: a record is never listed before one with a later timestamp. *)
Theorem get_user_analyses_ten_newest_first
    (sort_desc : list AnalysisDoc → list AnalysisDoc) (user : User)
    (st : State) :
  sorts_newest_first sort_desc →
  ∃ analyses,
    get_user_analyses sort_desc user st = (Ret analyses, st)
    ∧ (length analyses ≤ 10)%nat
    ∧ ∀ i j a b, (i ≤ j)%nat →
        analyses !! i = Some a → analyses !! j = Some b →
        doc_timestamp b ≤ doc_timestamp a.
Proof.
  intros Hsort. eexists. split; [reflexivity|]. split.
  - rewrite length_fmap, length_take. lia.
  - intros i j a b Hij Hi Hj.
    rewrite list_lookup_fmap in Hi, Hj.
    destruct (take 10 _ !! i) as [a0|] eqn:Ha; [|discriminate].
    destruct (take 10 _ !! j) as [b0|] eqn:Hb; [|discriminate].
    injection Hi as <-. injection Hj as <-.
    apply lookup_take_Some in Ha as [Ha _].
    apply lookup_take_Some in Hb as [Hb _].
    change (doc_timestamp b0 ≤ doc_timestamp a0).
    apply (sorted_lookup_newer _ i j a0 b0
             (@Sorted_StronglySorted _ newer_or_same newer_or_same_trans _
                (proj2 (Hsort _))) Hij Ha Hb).
Qed.

Lemma get_user_analyses_ten_newest_first_witness :
  ∃ analyses,
    get_user_analyses SampleAuth.sort_desc Sample.alice SampleAuth.history
      = (Ret analyses, SampleAuth.history)
    ∧ (length analyses ≤ 10)%nat.
Proof.
  destruct (get_user_analyses_ten_newest_first SampleAuth.sort_desc
              Sample.alice SampleAuth.history merge_sort_newest_first)
    as (analyses & Hrun & Hlen & _).
  exists analyses. split; [exact Hrun|exact Hlen].
Defined.

(** X16: when the listing leaves out a record of the user, it is because
    ten others are at least as new: a record of the user that is not listed
    is no newer than any listed one. *)
Theorem get_user_analyses_leaves_out_oldest
    (sort_desc : list AnalysisDoc → list AnalysisDoc) (user : User)
    (st : State) :
  sorts_newest_first sort_desc →
  ∃ analyses,
    get_user_analyses sort_desc user st = (Ret analyses, st)
    ∧ ∀ stored, stored ∈ analysis_collection st →
        doc_user_id stored = username user →
        pop__id stored ∉ analyses →
        length analyses = 10%nat
        ∧ ∀ doc, doc ∈ analyses →
            doc_timestamp stored ≤ doc_timestamp doc.
Proof.
  intros Hsort. eexists. split; [reflexivity|].
  intros stored Hstored Howner Hout.
  set (found := filter (λ d, doc_user_id d = username user)
                       (analysis_collection st)) in *.
  assert (Hin : stored ∈ sort_desc found).
  { rewrite (proj1 (Hsort _)). apply list_elem_of_filter. split; assumption. }
  rewrite <- (take_drop 10 (sort_desc found)) in Hin.
  apply elem_of_app in Hin as [Hin|Hin].
  { exfalso. apply Hout. apply list_elem_of_fmap_2. exact Hin. }
  split.
  - rewrite length_fmap, length_take.
    destruct (decide (10 ≤ length (sort_desc found))%nat) as [|Hshort];
      [lia|].
    rewrite drop_ge in Hin by lia. inversion Hin.
  - intros doc Hdoc.
    apply list_elem_of_fmap_1 in Hdoc as (listed & -> & Hlisted).
    change (doc_timestamp stored ≤ doc_timestamp listed).
    assert (Hs : StronglySorted newer_or_same
                   (take 10 (sort_desc found) ++ drop 10 (sort_desc found))).
    { rewrite take_drop.
      apply (@Sorted_StronglySorted _ newer_or_same newer_or_same_trans).
      exact (proj2 (Hsort _)). }
    exact (StronglySorted_app_1_elem_of _ _ _ _ _ Hs Hlisted Hin).
Qed.

Lemma get_user_analyses_leaves_out_oldest_witness :
  ∃ analyses,
    get_user_analyses SampleAuth.sort_desc Sample.alice
                      SampleAuth.long_history
      = (Ret analyses, SampleAuth.long_history)
    ∧ length analyses = 10%nat
    ∧ ∀ doc, doc ∈ analyses → 1 ≤ doc_timestamp doc.
Proof.
  destruct (get_user_analyses_leaves_out_oldest SampleAuth.sort_desc
              Sample.alice SampleAuth.long_history merge_sort_newest_first)
    as (analyses & Hrun & Hout).
  exists analyses. split; [exact Hrun|].
  apply (Hout (SampleAuth.record_at "k1" "alice" 1)).
  - apply list_elem_of_here.
  - reflexivity.
  - intros Hin. injection Hrun as <-.
    apply (list_elem_of_fmap_2 doc_id) in Hin. revert Hin.
    apply (bool_decide_unpack _). vm_compute. exact I.
Defined.

(** X17: a user with at most ten records is shown all of them. *)
Theorem get_user_analyses_all_when_few
    (sort_desc : list AnalysisDoc → list AnalysisDoc) (user : User)
    (st : State) :
  sorts_newest_first sort_desc →
  (length (filter (λ doc, doc_user_id doc = username user)
                  (analysis_collection st)) ≤ 10)%nat →
  ∃ analyses,
    get_user_analyses sort_desc user st = (Ret analyses, st)
    ∧ analyses ≡ₚ pop__id <$> filter (λ doc, doc_user_id doc = username user)
                                     (analysis_collection st).
Proof.
  intros Hsort Hfew. eexists. split; [reflexivity|].
  rewrite take_ge.
  - apply fmap_Permutation. exact (proj1 (Hsort _)).
  - rewrite (Permutation_length (proj1 (Hsort _))). exact Hfew.
Qed.

Lemma get_user_analyses_all_when_few_witness :
  ∃ analyses,
    get_user_analyses SampleAuth.sort_desc Sample.alice SampleAuth.history
      = (Ret analyses, SampleAuth.history)
    ∧ length analyses = 3%nat.
Proof.
  destruct (get_user_analyses_all_when_few SampleAuth.sort_desc Sample.alice
              SampleAuth.history merge_sort_newest_first)
    as (analyses & Hrun & Hperm).
  - apply (bool_decide_unpack _). vm_compute. exact I.
  - exists analyses. split; [exact Hrun|].
    rewrite (Permutation_length Hperm). vm_compute. reflexivity.
Defined.

Lemma find_by_id_present (id : string) (coll : list AnalysisDoc) :
  id ∈ doc_id <$> coll →
  ∃ doc, List.find (λ doc, bool_decide (doc_id doc = id)) coll = Some doc.
Proof.
  induction coll as [|a coll IH]; intros Hin.
  - inversion Hin.
  - cbn [List.find]. destruct (bool_decide (doc_id a = id)) eqn:Ha; [eauto|].
    apply bool_decide_eq_false_1 in Ha.
    rewrite fmap_cons in Hin. apply elem_of_cons in Hin as [->|Hin];
      [contradiction|]. exact (IH Hin).
Qed.

Lemma find_by_id_absent (id : string) (coll : list AnalysisDoc) :
  id ∉ doc_id <$> coll →
  List.find (λ doc, bool_decide (doc_id doc = id)) coll = None.
Proof.
  induction coll as [|a coll IH]; intros Hnot; [reflexivity|].
  rewrite fmap_cons, not_elem_of_cons in Hnot. destruct Hnot as [Hne Hnot].
  cbn [List.find]. rewrite bool_decide_eq_false_2 by congruence.
  exact (IH Hnot).
Qed.

(** X18: the webhook takes no requester and checks no owner: it answers
    "Webhook triggered" for the id of any record in the collection, and the
    404 exactly for the ids no record has; the state is left as it was. *)
Theorem webhook_ignores_owner (analysis_id : string) (st : State) :
  (analysis_id ∈ doc_id <$> analysis_collection st →
   webhook_analysis_result analysis_id st
     = (Ret (mkWebhook "Webhook triggered" analysis_id), st))
  ∧ (analysis_id ∉ doc_id <$> analysis_collection st →
     webhook_analysis_result analysis_id st
       = (Raise (HTTPException 404 "Analysis not found"), st)).
Proof.
  unfold webhook_analysis_result, find_one_by_id, mbind, M_bind, mret,
    M_ret, raise.
  split; intros Hid.
  - destruct (find_by_id_present _ _ Hid) as [doc ->]. reflexivity.
  - rewrite (find_by_id_absent _ _ Hid). reflexivity.
Qed.

Lemma webhook_ignores_owner_witness :
  webhook_analysis_result "uuid-5" Sample.after_two
    = (Ret (mkWebhook "Webhook triggered" "uuid-5"), Sample.after_two)
  ∧ get_analysis "uuid-5" Sample.alice Sample.after_two
      = (Raise (HTTPException 404 "Analysis not found"), Sample.after_two)
  ∧ webhook_analysis_result "uuid-9" Sample.after_two
      = (Raise (HTTPException 404 "Analysis not found"), Sample.after_two).
Proof.
  destruct (webhook_ignores_owner "uuid-5" Sample.after_two) as [Hhit _].
  destruct (webhook_ignores_owner "uuid-9" Sample.after_two) as [_ Hmiss].
  split; [|split].
  - apply Hhit. rewrite sample_collection. compute_done.
  - rewrite get_analysis_reads_collection, sample_collection. reflexivity.
  - apply Hmiss. rewrite sample_collection. compute_done.
Defined.

(** ** Properties of accounts and tokens *)

Lemma users_find_one_str (name : string) (users : list UserDoc) :
  users_find_one (PyStr name) users
    = List.find (λ user, bool_decide (user_username user = name)) users.
Proof. reflexivity. Qed.

Lemma users_find_one_sound (q : pyval) (users : list UserDoc)
    (user : UserDoc) :
  users_find_one q users = Some user →
  q = PyStr (user_username user) ∧ user ∈ users.
Proof.
  unfold users_find_one. intros Hfind.
  apply List.find_some in Hfind as [Hin Htest].
  destruct q; try discriminate Htest.
  apply bool_decide_eq_true_1 in Htest. subst s.
  split; [reflexivity|]. apply list_elem_of_In, Hin.
Qed.

Lemma users_find_one_absent (name : string) (users : list UserDoc) :
  name ∉ user_username <$> users →
  users_find_one (PyStr name) users = None.
Proof.
  rewrite users_find_one_str.
  induction users as [|a users IH]; intros Hnot; [reflexivity|].
  rewrite fmap_cons, not_elem_of_cons in Hnot. destruct Hnot as [Hne Hnot].
  cbn [List.find]. rewrite bool_decide_eq_false_2 by congruence.
  exact (IH Hnot).
Qed.

Lemma users_find_one_present (name : string) (users : list UserDoc) :
  name ∈ user_username <$> users →
  ∃ user, users_find_one (PyStr name) users = Some user.
Proof.
  rewrite users_find_one_str.
  induction users as [|a users IH]; intros Hin.
  - inversion Hin.
  - cbn [List.find].
    destruct (bool_decide (user_username a = name)) eqn:Ha; [eauto|].
    apply bool_decide_eq_false_1 in Ha.
    rewrite fmap_cons in Hin. apply elem_of_cons in Hin as [->|Hin];
      [contradiction|]. exact (IH Hin).
Qed.

(** X19: every way to fail authentication gives the same answer, the 401
    "Could not validate credentials"; and the user the dependency hands to
    a handler is a document of the users collection whose username is the
    string in the token's [sub] claim. *)
Theorem get_current_user_sound (auth : AuthEnv) (credentials : string)
    (users : list UserDoc) :
  (∀ e, get_current_user auth credentials users = Raise e →
        e = HTTPException 401 "Could not validate credentials")
  ∧ (∀ user, get_current_user auth credentials users = Ret user →
       user ∈ users
       ∧ ∃ payload, jwt_decode auth credentials = Some payload
                    ∧ payload !! "sub" = Some (PyStr (user_username user))).
Proof.
  unfold get_current_user.
  destruct (jwt_decode auth credentials) as [payload|];
    [|split; [intros e [= <-]; reflexivity|intros user [=]]].
  destruct (payload !! "sub") as [sub|] eqn:Hsub;
    [|split; [intros e [= <-]; reflexivity|intros user [=]]].
  destruct (users_find_one sub users) as [found|] eqn:Hfind.
  - apply users_find_one_sound in Hfind as [-> Hin]. split.
    + intros e [=].
    + intros user [= <-]. split; [exact Hin|]. eauto.
  - split.
    + intros e He. destruct sub; injection He as <-; reflexivity.
    + intros user Hu. destruct sub; discriminate Hu.
Qed.

Lemma get_current_user_sound_witness :
  get_current_user (SampleAuth.auth 30) "jwt:alice" [SampleAuth.alice_doc]
    = Ret SampleAuth.alice_doc
  ∧ get_current_user (SampleAuth.auth 30) "not a token"
                     [SampleAuth.alice_doc]
      = Raise (HTTPException 401 "Could not validate credentials").
Proof.
  split.
  - reflexivity.
  - destruct (get_current_user (SampleAuth.auth 30) "not a token"
                               [SampleAuth.alice_doc]) as [user|e] eqn:Hrun.
    + discriminate Hrun.
    + f_equal.
      exact (proj1 (get_current_user_sound (SampleAuth.auth 30)
                      "not a token" [SampleAuth.alice_doc]) e Hrun).
Defined.


(** The lifetime a token gets: the configured minutes, or fifteen when
    zero minutes are configured, a zero [timedelta] being falsy. *)
Lemma issue_token_run (auth : AuthEnv) (now : Z) (name : string) :
  issue_token auth now name =
    if bool_decide (timedelta_min
                    ≤ minutes_us (ACCESS_TOKEN_EXPIRE_MINUTES auth)
                    ≤ timedelta_max)
    then
      let lifetime :=
        minutes_us (if bool_decide (ACCESS_TOKEN_EXPIRE_MINUTES auth = 0)
                    then 15 else ACCESS_TOKEN_EXPIRE_MINUTES auth) in
      if bool_decide (datetime_min ≤ now + lifetime ≤ datetime_max)
      then
        match jwt_encode auth
                {[ "exp" := ClaimTime (now + lifetime);
                   "sub" := ClaimValue (PyStr name) ]} with
        | Ret access_token => Ret (mkToken access_token "bearer")
        | Raise e => Raise e
        end
      else Raise (OverflowError "date value out of range")
    else Raise (OverflowError
                  (timedelta_overflow_str auth
                     (ACCESS_TOKEN_EXPIRE_MINUTES auth))).
Proof.
  unfold issue_token, timedelta_minutes, create_access_token, datetime_add.
  destruct (bool_decide (timedelta_min ≤ _ ≤ timedelta_max));
    [|reflexivity].
  cbn [mbind res_bind]. cbv zeta.
  destruct (decide (ACCESS_TOKEN_EXPIRE_MINUTES auth = 0)) as [H0|H0].
  - rewrite H0.
    rewrite (bool_decide_eq_false_2 (minutes_us 0 ≠ 0))
      by (unfold minutes_us; lia).
    rewrite (bool_decide_eq_true_2 (0 = 0)) by reflexivity.
    destruct (bool_decide (datetime_min ≤ _ ≤ datetime_max));
      [|reflexivity].
    cbn [mbind res_bind]. destruct (jwt_encode auth _); reflexivity.
  - rewrite (bool_decide_eq_true_2
               (minutes_us (ACCESS_TOKEN_EXPIRE_MINUTES auth) ≠ 0))
      by (unfold minutes_us; lia).
    rewrite (bool_decide_eq_false_2 _ H0).
    destruct (bool_decide (datetime_min ≤ _ ≤ datetime_max));
      [|reflexivity].
    cbn [mbind res_bind]. destruct (jwt_encode auth _); reflexivity.
Qed.

Lemma register_run (auth : AuthEnv) (user : UserCreate)
    (users : list UserDoc) :
  register auth user users =
    match users_find_one (PyStr (new_username user)) users with
    | Some _ =>
        (Raise (HTTPException 400 "Username already registered"), users)
    | None =>
        match pwd_hash auth (new_password user) with
        | Raise e => (Raise e, users)
        | Ret hashed =>
            match users_insert_error auth
                    (mkUserDoc (new_username user) hashed (clock auth 0)) with
            | Some msg => (Raise (LibraryError msg), users)
            | None =>
                (issue_token auth (clock auth 1) (new_username user),
                 users ++ [mkUserDoc (new_username user) hashed
                                     (bson_datetime (clock auth 0))])
            end
        end
    end.
Proof.
  unfold register, get_password_hash, users_insert_one.
  destruct (users_find_one _ users); [reflexivity|].
  destruct (pwd_hash auth _) as [hashed|e]; [|reflexivity].
  cbn [user_username user_hashed_password user_created_at].
  destruct (users_insert_error auth _); reflexivity.
Qed.

Lemma login_run (auth : AuthEnv) (user : UserCreate) (users : list UserDoc) :
  login auth user users =
    match users_find_one (PyStr (new_username user)) users with
    | None => Raise (HTTPException 401 "Incorrect username or password")
    | Some db_user =>
        match pwd_verify auth (new_password user)
                         (user_hashed_password db_user) with
        | Raise e => Raise e
        | Ret true => issue_token auth (clock auth 0) (new_username user)
        | Ret false =>
            Raise (HTTPException 401 "Incorrect username or password")
        end
    end.
Proof.
  unfold login, verify_password.
  destruct (users_find_one _ users) as [db_user|]; [|reflexivity].
  destruct (pwd_verify auth _ _) as [[|]|e]; reflexivity.
Qed.

Lemma users_find_one_snoc_new (name hashed : string) (created : Z)
    (users : list UserDoc) :
  users_find_one (PyStr name) users = None →
  users_find_one (PyStr name) (users ++ [mkUserDoc name hashed created])
    = Some (mkUserDoc name hashed created).
Proof.
  intros Hfree. rewrite users_find_one_str, find_snoc.
  rewrite <- users_find_one_str, Hfree. cbn [user_username].
  rewrite bool_decide_eq_true_2 by reflexivity. reflexivity.
Qed.

(** X20: registering a username that is taken is refused with the 400
    "Username already registered" and changes nothing.  For a free
    username: if hashing the password raises, or the insert raises, the
    exception leaves and nothing is stored; otherwise one user document is
    appended, with the hash and the clock reading kept to the millisecond,
    and it stays stored even when the token cannot be made, as when the
    expiry falls outside [datetime]'s range; when the token can be made, a
    bearer token is returned whose claims are the username as [sub] and an
    expiry the configured number of minutes after the second clock reading
    (fifteen minutes when zero minutes are configured). *)
Theorem register_outcomes (auth : AuthEnv) (user : UserCreate)
    (users : list UserDoc) :
  (new_username user ∈ user_username <$> users →
   register auth user users
     = (Raise (HTTPException 400 "Username already registered"), users))
  ∧ (new_username user ∉ user_username <$> users →
     (∀ e, pwd_hash auth (new_password user) = Raise e →
           register auth user users = (Raise e, users))
     ∧ ∀ hashed, pwd_hash auth (new_password user) = Ret hashed →
         (∀ msg,
            users_insert_error auth
              (mkUserDoc (new_username user) hashed (clock auth 0))
              = Some msg →
            register auth user users = (Raise (LibraryError msg), users))
         ∧ (users_insert_error auth
              (mkUserDoc (new_username user) hashed (clock auth 0)) = None →
            let lifetime :=
              minutes_us
                (if bool_decide (ACCESS_TOKEN_EXPIRE_MINUTES auth = 0)
                 then 15 else ACCESS_TOKEN_EXPIRE_MINUTES auth) in
            snd (register auth user users)
              = users ++ [mkUserDoc (new_username user) hashed
                                    (bson_datetime (clock auth 0))]
            ∧ (timedelta_min ≤ minutes_us (ACCESS_TOKEN_EXPIRE_MINUTES auth)
                 ≤ timedelta_max →
               (¬ datetime_min ≤ clock auth 1 + lifetime ≤ datetime_max →
                fst (register auth user users)
                  = Raise (OverflowError "date value out of range"))
               ∧ (datetime_min ≤ clock auth 1 + lifetime ≤ datetime_max →
                  ∀ tok,
                    jwt_encode auth
                      {[ "exp" := ClaimTime (clock auth 1 + lifetime);
                         "sub" := ClaimValue (PyStr (new_username user)) ]}
                      = Ret tok →
                    fst (register auth user users)
                      = Ret (mkToken tok "bearer"))))).
Proof.
  rewrite register_run. split; intros Hname.
  - destruct (users_find_one_present _ _ Hname) as [found ->]. reflexivity.
  - rewrite (users_find_one_absent _ _ Hname). split.
    + intros e ->. reflexivity.
    + intros hashed ->. split.
      * intros msg ->. reflexivity.
      * intros ->. cbv zeta. cbn [fst snd]. split; [reflexivity|].
        intros Hdelta. rewrite issue_token_run.
        rewrite (bool_decide_eq_true_2 _ Hdelta). cbv zeta. split.
        -- intros Hout. rewrite (bool_decide_eq_false_2 _ Hout).
           reflexivity.
        -- intros Hin tok Htok. rewrite (bool_decide_eq_true_2 _ Hin), Htok.
           reflexivity.
Qed.

Lemma register_outcomes_witness :
  register (SampleAuth.auth 30) SampleAuth.alice [SampleAuth.alice_doc]
    = (Raise (HTTPException 400 "Username already registered"),
       [SampleAuth.alice_doc])
  ∧ register (SampleAuth.auth 100000000000) SampleAuth.alice []
      = (Raise (OverflowError "date value out of range"),
         [SampleAuth.alice_doc])
  ∧ fst (register (SampleAuth.auth 30) SampleAuth.alice [])
      = Ret (mkToken "jwt:alice" "bearer").
Proof.
  split; [|split].
  - apply (proj1 (register_outcomes (SampleAuth.auth 30) SampleAuth.alice
                    [SampleAuth.alice_doc])).
    compute_done.
  - destruct (proj2 (register_outcomes (SampleAuth.auth 100000000000)
                       SampleAuth.alice [])
                (not_elem_of_nil _)) as [_ Hhashed].
    destruct (Hhashed "bcrypt$TestPass123!" eq_refl) as [_ Hstored].
    destruct (Hstored eq_refl) as [Hsnd [Hover _]].
    + compute_done.
    + rewrite (surjective_pairing (register _ _ _)), Hsnd, Hover.
      * reflexivity.
      * intros Hrange. revert Hrange. compute_done.
  - destruct (proj2 (register_outcomes (SampleAuth.auth 30)
                       SampleAuth.alice [])
                (not_elem_of_nil _)) as [_ Hhashed].
    destruct (Hhashed "bcrypt$TestPass123!" eq_refl) as [_ Hstored].
    destruct (Hstored eq_refl) as [_ [_ Hok]].
    + compute_done.
    + apply Hok; [compute_done|reflexivity].
Defined.

(** X21: registration keeps usernames unique: if no two user documents
    share a username before a registration, none do after it, whether it
    was accepted or refused. *)
Theorem register_keeps_usernames_unique (auth : AuthEnv) (user : UserCreate)
    (users : list UserDoc) :
  NoDup (user_username <$> users) →
  NoDup (user_username <$> snd (register auth user users)).
Proof.
  intros Hnd. rewrite register_run.
  destruct (users_find_one _ users) as [found|] eqn:Hfind; [exact Hnd|].
  destruct (pwd_hash auth _) as [hashed|e]; [|exact Hnd].
  destruct (users_insert_error auth _); [exact Hnd|].
  cbn [snd]. rewrite fmap_app. apply NoDup_app. split; [exact Hnd|].
  split; [|apply NoDup_singleton].
  intros name Hin Hnew. cbn in Hnew. apply list_elem_of_singleton in Hnew.
  subst name. destruct (users_find_one_present _ _ Hin) as [u Hu].
  congruence.
Qed.

Lemma register_keeps_usernames_unique_witness :
  NoDup (user_username
           <$> snd (register (SampleAuth.auth 30) SampleAuth.bob
                             [SampleAuth.alice_doc])).
Proof.
  apply (register_keeps_usernames_unique (SampleAuth.auth 30) SampleAuth.bob
           [SampleAuth.alice_doc]).
  compute_done.
Defined.

(** X22: login answers the one 401 "Incorrect username or password" both
    for an unknown username and for a password that does not verify
    against the hash of the first document with the username; if verifying
    raises, that exception leaves instead; once the password verifies, the
    answer is a bearer token with the username as [sub] and an expiry the
    configured number of minutes after the clock reading (fifteen when zero
    are configured), provided the expiry is a [datetime] and the token can
    be encoded.  A token is never returned unless the password verified. *)
Theorem login_outcomes (auth : AuthEnv) (user : UserCreate)
    (users : list UserDoc) :
  let lifetime :=
    minutes_us (if bool_decide (ACCESS_TOKEN_EXPIRE_MINUTES auth = 0)
                then 15 else ACCESS_TOKEN_EXPIRE_MINUTES auth) in
  let claims :=
    {[ "exp" := ClaimTime (clock auth 0 + lifetime);
       "sub" := ClaimValue (PyStr (new_username user)) ]} in
  (users_find_one (PyStr (new_username user)) users = None →
   login auth user users
     = Raise (HTTPException 401 "Incorrect username or password"))
  ∧ (∀ db_user,
       users_find_one (PyStr (new_username user)) users = Some db_user →
       (pwd_verify auth (new_password user) (user_hashed_password db_user)
          = Ret false →
        login auth user users
          = Raise (HTTPException 401 "Incorrect username or password"))
       ∧ (∀ e, pwd_verify auth (new_password user)
                          (user_hashed_password db_user) = Raise e →
               login auth user users = Raise e)
       ∧ (pwd_verify auth (new_password user) (user_hashed_password db_user)
            = Ret true →
          timedelta_min ≤ minutes_us (ACCESS_TOKEN_EXPIRE_MINUTES auth)
            ≤ timedelta_max →
          datetime_min ≤ clock auth 0 + lifetime ≤ datetime_max →
          ∀ tok, jwt_encode auth claims = Ret tok →
                 login auth user users = Ret (mkToken tok "bearer")))
  ∧ (∀ token, login auth user users = Ret token →
       token_type token = "bearer"
       ∧ jwt_encode auth claims = Ret (access_token token)
       ∧ ∃ db_user,
           users_find_one (PyStr (new_username user)) users = Some db_user
           ∧ pwd_verify auth (new_password user)
                        (user_hashed_password db_user) = Ret true).
Proof.
  intros lifetime claims. rewrite login_run. split; [|split].
  - intros ->. reflexivity.
  - intros db_user ->. split; [|split].
    + intros ->. reflexivity.
    + intros e ->. reflexivity.
    + intros -> Hdelta Hin tok Htok. rewrite issue_token_run.
      rewrite (bool_decide_eq_true_2 _ Hdelta). cbv zeta.
      fold lifetime. rewrite (bool_decide_eq_true_2 _ Hin).
      fold claims. rewrite Htok. reflexivity.
  - intros token Hrun.
    destruct (users_find_one _ users) as [db_user|]; [|discriminate].
    destruct (pwd_verify auth _ _) as [[|]|e] eqn:Hv; try discriminate.
    rewrite issue_token_run in Hrun.
    destruct (bool_decide (timedelta_min ≤ _ ≤ timedelta_max));
      [|discriminate].
    cbv zeta in Hrun. fold lifetime in Hrun.
    destruct (bool_decide (datetime_min ≤ _ ≤ datetime_max));
      [|discriminate].
    fold claims in Hrun.
    destruct (jwt_encode auth claims) as [tok|e]; [|discriminate].
    injection Hrun as <-. split; [reflexivity|]. split; [reflexivity|].
    exists db_user. split; [reflexivity|exact Hv].
Qed.

Lemma login_outcomes_witness :
  login (SampleAuth.auth 30) SampleAuth.alice [SampleAuth.alice_doc]
    = Ret (mkToken "jwt:alice" "bearer")
  ∧ login (SampleAuth.auth 30) SampleAuth.bob [SampleAuth.alice_doc]
      = Raise (HTTPException 401 "Incorrect username or password")
  ∧ login (SampleAuth.auth 30) (mkUserCreate "alice" "guess")
          [SampleAuth.alice_doc]
      = Raise (HTTPException 401 "Incorrect username or password").
Proof.
  split; [|split].
  - destruct (proj1 (proj2 (login_outcomes (SampleAuth.auth 30)
                              SampleAuth.alice [SampleAuth.alice_doc]))
                SampleAuth.alice_doc eq_refl) as (_ & _ & Hok).
    apply Hok; [reflexivity|compute_done|compute_done|reflexivity].
  - apply (proj1 (login_outcomes (SampleAuth.auth 30) SampleAuth.bob
                    [SampleAuth.alice_doc])).
    reflexivity.
  - destruct (proj1 (proj2 (login_outcomes (SampleAuth.auth 30)
                              (mkUserCreate "alice" "guess")
                              [SampleAuth.alice_doc]))
                SampleAuth.alice_doc eq_refl) as (Hwrong & _).
    apply Hwrong. reflexivity.
Defined.

(** X23: once a registration under a free username has stored its user
    document, a later login with the same password, which the password
    context verifies against the stored hash, gets its bearer token
    (provided the expiry is a [datetime] and the token can be encoded); a
    password the context does not verify is refused with the 401, and one
    it raises on leaves with that exception. *)
Theorem register_then_login (auth later : AuthEnv) (user : UserCreate)
    (users : list UserDoc) (hashed : string) :
  new_username user ∉ user_username <$> users →
  pwd_hash auth (new_password user) = Ret hashed →
  users_insert_error auth
    (mkUserDoc (new_username user) hashed (clock auth 0)) = None →
  let users' := snd (register auth user users) in
  let lifetime :=
    minutes_us (if bool_decide (ACCESS_TOKEN_EXPIRE_MINUTES later = 0)
                then 15 else ACCESS_TOKEN_EXPIRE_MINUTES later) in
  (pwd_verify later (new_password user) hashed = Ret true →
   timedelta_min ≤ minutes_us (ACCESS_TOKEN_EXPIRE_MINUTES later)
     ≤ timedelta_max →
   datetime_min ≤ clock later 0 + lifetime ≤ datetime_max →
   ∀ tok,
     jwt_encode later
       {[ "exp" := ClaimTime (clock later 0 + lifetime);
          "sub" := ClaimValue (PyStr (new_username user)) ]} = Ret tok →
     login later user users' = Ret (mkToken tok "bearer"))
  ∧ (∀ wrong,
       pwd_verify later wrong hashed = Ret false →
       login later (mkUserCreate (new_username user) wrong) users'
         = Raise (HTTPException 401 "Incorrect username or password"))
  ∧ (∀ wrong e,
       pwd_verify later wrong hashed = Raise e →
       login later (mkUserCreate (new_username user) wrong) users'
         = Raise e).
Proof.
  intros Hfree Hhash Hins users' lifetime. subst users'.
  rewrite register_run, (users_find_one_absent _ _ Hfree), Hhash, Hins.
  cbn [snd].
  pose proof (users_find_one_snoc_new (new_username user) hashed
                (bson_datetime (clock auth 0)) users
                (users_find_one_absent _ _ Hfree)) as Hfind.
  split; [|split].
  - intros Hv Hdelta Hin tok Htok. rewrite login_run, Hfind.
    cbn [user_hashed_password]. rewrite Hv, issue_token_run.
    rewrite (bool_decide_eq_true_2 _ Hdelta). cbv zeta. fold lifetime.
    rewrite (bool_decide_eq_true_2 _ Hin), Htok. reflexivity.
  - intros wrong Hv. rewrite login_run. cbn [new_username new_password].
    rewrite Hfind. cbn [user_hashed_password]. rewrite Hv. reflexivity.
  - intros wrong e Hv. rewrite login_run. cbn [new_username new_password].
    rewrite Hfind. cbn [user_hashed_password]. rewrite Hv. reflexivity.
Qed.

Lemma register_then_login_witness :
  login (SampleAuth.auth 30) SampleAuth.alice
        (snd (register (SampleAuth.auth 30) SampleAuth.alice []))
    = Ret (mkToken "jwt:alice" "bearer")
  ∧ login (SampleAuth.auth 30) (mkUserCreate "alice" "guess")
          (snd (register (SampleAuth.auth 30) SampleAuth.alice []))
      = Raise (HTTPException 401 "Incorrect username or password").
Proof.
  destruct (register_then_login (SampleAuth.auth 30) (SampleAuth.auth 30)
              SampleAuth.alice [] "bcrypt$TestPass123!"
              (not_elem_of_nil _) eq_refl eq_refl)
    as (Hok & Hwrong & _).
  split.
  - apply Hok; [reflexivity|compute_done|compute_done|reflexivity].
  - apply (Hwrong "guess"). reflexivity.
Defined.

(** X24: someone else registering changes nothing for the users already
    there: the login of any other username gives the same answer after the
    registration as before. *)
Theorem register_leaves_other_logins (auth : AuthEnv)
    (user other : UserCreate) (users : list UserDoc) :
  new_username other ≠ new_username user →
  login auth other (snd (register auth user users))
    = login auth other users.
Proof.
  intros Hother. rewrite register_run, !login_run.
  destruct (users_find_one (PyStr (new_username user)) users);
    [reflexivity|].
  destruct (pwd_hash auth _) as [hashed|e]; [|reflexivity].
  destruct (users_insert_error auth _); [reflexivity|].
  cbn [snd]. rewrite !users_find_one_str, find_snoc.
  destruct (List.find _ users); [reflexivity|].
  cbn [user_username]. rewrite bool_decide_eq_false_2 by congruence.
  reflexivity.
Qed.

Lemma register_leaves_other_logins_witness :
  login (SampleAuth.auth 30) SampleAuth.alice
        (snd (register (SampleAuth.auth 30) SampleAuth.bob
                       [SampleAuth.alice_doc]))
    = login (SampleAuth.auth 30) SampleAuth.alice [SampleAuth.alice_doc].
Proof.
  apply (register_leaves_other_logins (SampleAuth.auth 30) SampleAuth.bob
           SampleAuth.alice [SampleAuth.alice_doc]).
  discriminate.
Defined.

Lemma substring_all (s : string) :
  String.substring 0 (String.length s) s = s.
Proof. induction s as [|c s IH]; [reflexivity|]. cbn. f_equal. exact IH. Qed.

Lemma sample_jwt_round_trip (minutes : Z) (name tok : string) (t : Z) :
  jwt_encode (SampleAuth.auth minutes)
    {[ "exp" := ClaimTime t; "sub" := ClaimValue (PyStr name) ]} = Ret tok →
  jwt_decode (SampleAuth.auth minutes) tok = Some {[ "sub" := PyStr name ]}.
Proof.
  cbn [SampleAuth.auth jwt_encode jwt_decode]. unfold SampleAuth.encode.
  rewrite lookup_insert_ne by discriminate. rewrite lookup_singleton_eq.
  intros [= <-]. unfold SampleAuth.decode.
  change (String.prefix "jwt:" ("jwt:" +:+ name))
    with (String.prefix "" name).
  replace (String.prefix "" name) with true by (destruct name; reflexivity).
  change (String.substring 4 (String.length ("jwt:" +:+ name) - 4)
                           ("jwt:" +:+ name))
    with (String.substring 0 (String.length name - 0) name).
  rewrite Nat.sub_0_r, substring_all. reflexivity.
Qed.

(** X25: the token a successful registration returns authenticates, in a
    later request, as the user document the registration stored, as long
    as the later request's clock has not passed the token's expiry; this
    given a JWT library that, in the later request, decodes a token it
    encoded from a [sub] and an unexpired [exp] with the [sub] string
    intact. *)
Theorem register_token_authenticates (auth later : AuthEnv)
    (user : UserCreate) (users users' : list UserDoc) (token : Token) :
  (∀ name t tok,
     jwt_encode auth
       {[ "exp" := ClaimTime t; "sub" := ClaimValue (PyStr name) ]}
       = Ret tok →
     clock later 0 ≤ t →
     ∃ payload, jwt_decode later tok = Some payload
                ∧ payload !! "sub" = Some (PyStr name)) →
  register auth user users = (Ret token, users') →
  clock later 0
    ≤ clock auth 1
      + minutes_us (if bool_decide (ACCESS_TOKEN_EXPIRE_MINUTES auth = 0)
                    then 15 else ACCESS_TOKEN_EXPIRE_MINUTES auth) →
  ∃ hashed,
    pwd_hash auth (new_password user) = Ret hashed
    ∧ get_current_user later (access_token token) users'
        = Ret (mkUserDoc (new_username user) hashed
                         (bson_datetime (clock auth 0))).
Proof.
  intros Hjwt Hreg Hfresh. rewrite register_run in Hreg.
  destruct (users_find_one (PyStr (new_username user)) users) eqn:Hfree;
    [discriminate|].
  destruct (pwd_hash auth _) as [hashed|e]; [|discriminate].
  destruct (users_insert_error auth _); [discriminate|].
  injection Hreg as Htoken <-. exists hashed. split; [reflexivity|].
  rewrite issue_token_run in Htoken.
  destruct (bool_decide (timedelta_min ≤ _ ≤ timedelta_max));
    [|discriminate].
  cbv zeta in Htoken.
  destruct (bool_decide (datetime_min ≤ _ ≤ datetime_max));
    [|discriminate].
  destruct (jwt_encode auth _) as [tok|e] eqn:Henc; [|discriminate].
  injection Htoken as <-. cbn [access_token].
  destruct (Hjwt _ _ _ Henc Hfresh) as (payload & Hdec & Hsub).
  unfold get_current_user. rewrite Hdec, Hsub.
  rewrite (users_find_one_snoc_new _ _ _ _ Hfree). reflexivity.
Qed.

Lemma register_token_authenticates_witness :
  ∃ token users',
    register (SampleAuth.auth 30) SampleAuth.alice [] = (Ret token, users')
    ∧ get_current_user (SampleAuth.auth 30) (access_token token) users'
        = Ret SampleAuth.alice_doc.
Proof.
  do 2 eexists. split; [reflexivity|].
  destruct (register_token_authenticates (SampleAuth.auth 30)
              (SampleAuth.auth 30) SampleAuth.alice []
              [SampleAuth.alice_doc] (mkToken "jwt:alice" "bearer"))
    as (hashed & Hhash & Hget).
  - intros name t tok Henc _. eexists. split.
    + apply (sample_jwt_round_trip 30 name tok t Henc).
    + apply lookup_singleton_eq.
  - reflexivity.
  - compute_done.
  - injection Hhash as <-. exact Hget.
Defined.
